(** * medical-clinic: the Calendly gateway of [main.py]

    A shallow embedding of [main.py]: the [CalendlyClient] class, the module
    level client object and the FastAPI route handlers, followed by the
    properties of the specification that concern them.

    The handlers are [async] functions that await one outbound HTTP call at
    a time.  They are modelled sequentially, in a monad that threads the one
    shared mutable object of the program (the module level
    [calendly_client]) together with the list of outbound requests attempted
    so far, and that carries Python exceptions.  A state change made before
    an exception is raised survives the exception, as in Python. *)

From Stdlib Require Import String Ascii ZArith List Bool Lia DecimalString.
From Stdlib Require DecimalPos DecimalZ.
Import ListNotations.

Set Warnings "-register-all".

Local Open Scope string_scope.
Local Open Scope Z_scope.

(* ================================================================== *)
(** ** Python values and the operations the program applies to them   *)
(* ================================================================== *)

Module Py.

(** The values that travel through the handlers: what [json.loads] builds
    and what the handlers build themselves.  A [dict] keeps its insertion
    order; its keys are strings.  Numbers with a fractional part are only
    ever passed through by the program and are left out. *)
Inductive value : Type :=
| VNone
| VBool (b : bool)
| VInt (z : Z)
| VStr (s : string)
| VList (items : list value)
| VDict (entries : list (string * value)).

(** The exceptions that can arise.  [TransportError] stands for whatever
    [httpx] raises when no response is obtained, [JSONDecodeError] for what
    [response.json()] raises on a body that is not JSON.  The last two are
    the FastAPI exceptions the handlers raise on purpose. *)
Inductive exn : Type :=
| ValueError (msg : string)
| KeyError (key : string)
| IndexError
| TypeError
| AttributeError (attr : string)
| JSONDecodeError
| TransportError (detail : string)
| RequestValidationError (errors : list value)
| HTTPException (status_code : Z) (detail : string).

Definition result (A : Type) : Type := (exn + A)%type.

(** [bool(v)]: the truth value Python gives to [v] in [if v] and [not v]. *)
Definition truthy (v : value) : bool :=
  match v with
  | VNone => false
  | VBool b => b
  | VInt z => negb (z =? 0)
  | VStr s => negb (s =? EmptyString)%string
  | VList items => match items with [] => false | _ => true end
  | VDict entries => match entries with [] => false | _ => true end
  end.

Fixpoint lookup (k : string) (entries : list (string * value)) : option value :=
  match entries with
  | [] => None
  | (k', v) :: rest => if (k' =? k)%string then Some v else lookup k rest
  end.

(** [d.get(k, default)] on a dict [d]. *)
Definition dict_get (entries : list (string * value)) (k : string)
    (default : value) : value :=
  match lookup k entries with
  | Some v => v
  | None => default
  end.

(** [v.get(k, default)] on an arbitrary value: only a dict has [get]. *)
Definition get (v : value) (k : string) (default : value) : result value :=
  match v with
  | VDict entries => inr (dict_get entries k default)
  | _ => inl (AttributeError "get")
  end.

(** [v[k]] with a string key [k]. *)
Definition subscript (v : value) (k : string) : result value :=
  match v with
  | VDict entries =>
      match lookup k entries with
      | Some x => inr x
      | None => inl (KeyError k)
      end
  | _ => inl TypeError
  end.

(** [len(v)]. *)
Definition len (v : value) : result Z :=
  match v with
  | VStr s => inr (Z.of_nat (String.length s))
  | VList items => inr (Z.of_nat (List.length items))
  | VDict entries => inr (Z.of_nat (List.length entries))
  | _ => inl TypeError
  end.

(** [s.split(sep)] for a one character separator. *)
Fixpoint split_on (sep : ascii) (s : string) : list string :=
  match s with
  | EmptyString => [EmptyString]
  | String c s' =>
      if Ascii.eqb c sep then EmptyString :: split_on sep s'
      else match split_on sep s' with
           | seg :: rest => String c seg :: rest
           | [] => [String c EmptyString]
           end
  end.

(** [v.split("/")]: only a string has [split]. *)
Definition split (v : value) (sep : ascii) : result (list string) :=
  match v with
  | VStr s => inr (split_on sep s)
  | _ => inl (AttributeError "split")
  end.

(** [l[-1]]. *)
Fixpoint last_item (l : list string) : result string :=
  match l with
  | [] => inl IndexError
  | [x] => inr x
  | _ :: rest => last_item rest
  end.

(** [v.startswith(p)]: only a string has [startswith]. *)
Definition startswith (v : value) (p : string) : result bool :=
  match v with
  | VStr s => inr (String.prefix p s)
  | _ => inl (AttributeError "startswith")
  end.

(** An f-string field holding an [int]. *)
Definition str_int (z : Z) : string := NilZero.string_of_int (Z.to_int z).

(** An f-string field holding a string or [None]. *)
Definition str_opt (o : option string) : string :=
  match o with
  | Some s => s
  | None => "None"
  end.

End Py.

Import Py.

(* ================================================================== *)
(** ** The HTTP exchange with the upstream provider                    *)
(* ================================================================== *)

Inductive method : Type := GET | POST.

(** One outbound call, as handed to [httpx]. *)
Record request : Type := mkRequest {
  meth : method;
  url : string;
  req_headers : list (string * string);
  params : list (string * value);
  json_body : option value
}.

(** What the program reads of an [httpx] response: [status_code], [text]
    and the outcome of [json()], which is [None] when the body does not
    decode. *)
Record response : Type := mkResponse {
  status_code : Z;
  text : string;
  json : option value
}.

Inductive outcome : Type :=
| Responds (r : response)
| Fails (detail : string).

(** The upstream provider: how it answers a request, given the requests it
    has seen before. *)
Definition provider : Type := list request -> request -> outcome.

(* ================================================================== *)
(** ** The client object and the state of the process                  *)
(* ================================================================== *)

Record CalendlyClient : Type := mkClient {
  base_url : option string;
  token : string;
  headers : list (string * string);
  user_uri : value;
  user_uuid : value
}.

(** The process state: the module level [calendly_client] and the outbound
    requests attempted so far, oldest first. *)
Record world : Type := mkWorld {
  calendly_client : CalendlyClient;
  wire : list request
}.

Definition with_user_uri (v : value) (c : CalendlyClient) : CalendlyClient :=
  mkClient (base_url c) (token c) (headers c) v (user_uuid c).

Definition with_user_uuid (v : value) (c : CalendlyClient) : CalendlyClient :=
  mkClient (base_url c) (token c) (headers c) (user_uri c) v.

(** Computations over the process state that may raise. *)
Definition M (A : Type) : Type := world -> result A * world.

Definition ret {A} (a : A) : M A := fun w => (inr a, w).

Definition raise {A} (e : exn) : M A := fun w => (inl e, w).

Definition lift {A} (r : result A) : M A := fun w => (r, w).

Definition bind {A B} (m : M A) (k : A -> M B) : M B :=
  fun w =>
    match m w with
    | (inr a, w') => k a w'
    | (inl e, w') => (inl e, w')
    end.

(** [try: m  except Exception as e: h e]. *)
Definition try_except {A} (m : M A) (h : exn -> M A) : M A :=
  fun w =>
    match m w with
    | (inr a, w') => (inr a, w')
    | (inl e, w') => h e w'
    end.

Declare Scope py_scope.
Delimit Scope py_scope with py.
Notation "x <- m ;; k" := (bind m (fun x => k))
  (at level 100, m at next level, right associativity) : py_scope.
Notation "m ;; k" := (bind m (fun _ => k))
  (at level 100, right associativity) : py_scope.
Local Open Scope py_scope.

Definition self : M CalendlyClient := fun w => (inr (calendly_client w), w).

Definition set_user_uri (v : value) : M unit :=
  fun w => (inr tt, mkWorld (with_user_uri v (calendly_client w)) (wire w)).

Definition set_user_uuid (v : value) : M unit :=
  fun w => (inr tt, mkWorld (with_user_uuid v (calendly_client w)) (wire w)).

(** [response.json()]. *)
Definition response_json (r : response) : result value :=
  match json r with
  | Some v => inr v
  | None => inl JSONDecodeError
  end.

Section App.

(** The upstream provider is arbitrary. *)
Variable upstream : provider.

(** [str(e)], the interpreter's rendering of an exception. *)
Variable str_exn : exn -> string.

(** One call through an [httpx.AsyncClient]: the request goes on the wire
    and either a response comes back or the call raises. *)
Definition send (rq : request) : M response :=
  fun w =>
    let w' := mkWorld (calendly_client w) (wire w ++ [rq]) in
    match upstream (wire w) rq with
    | Responds r => (inr r, w')
    | Fails detail => (inl (TransportError detail), w')
    end.

Definition client_get (u : string) (h : list (string * string))
    (p : list (string * value)) : M response :=
  send (mkRequest GET u h p None).

Definition client_post (u : string) (h : list (string * string))
    (body : value) : M response :=
  send (mkRequest POST u h [] (Some body)).

(** *** [CalendlyClient] *)

(** [CalendlyClient.__init__], given [os.getenv]. *)
Definition __init__ (getenv : string -> option string) : result CalendlyClient :=
  let base := getenv "BASE_URL" in
  match getenv "CALENDLY_API_TOKEN" with
  | None =>
      inl (ValueError "Missing Calendly API token. Please set CALENDLY_API_TOKEN in your environment.")
  | Some tok =>
      if (tok =? EmptyString)%string then
        inl (ValueError "Missing Calendly API token. Please set CALENDLY_API_TOKEN in your environment.")
      else
        inr (mkClient base tok
               [("Authorization", "Bearer " ++ tok);
                ("Content-Type", "application/json")]
               VNone VNone)
  end.

(** [CalendlyClient.test_connection].  The [logger.info] line formats
    [user_data['resource']['name']], which is evaluated (and may raise)
    before the function returns. *)
Definition test_connection : M value :=
  try_except
    (c <- self ;;
     response <- client_get (str_opt (base_url c) ++ "/users/me") (headers c) [] ;;
     if status_code response =? 200 then
       user_data <- lift (response_json response) ;;
       resource <- lift (subscript user_data "resource") ;;
       uri <- lift (subscript resource "uri") ;;
       set_user_uri uri ;;
       c1 <- self ;;
       segments <- lift (split (user_uri c1) "/") ;;
       uuid <- lift (last_item segments) ;;
       set_user_uuid (VStr uuid) ;;
       resource' <- lift (subscript user_data "resource") ;;
       _ <- lift (subscript resource' "name") ;;
       ret user_data
     else
       ret VNone)
    (fun _ => ret VNone).

(** The payload the client methods and the booking handler hand back when
    the upstream answers with an unexpected status. *)
Definition soft_error (r : response) : value :=
  VDict [("error", VStr ("Calendly returned " ++ str_int (status_code r)));
         ("details", VStr (text r))].

(** [CalendlyClient.get_event_types].  The [count] computed for the log
    line is evaluated (and may raise) before the function returns. *)
Definition get_event_types : M value :=
  try_except
    (c <- self ;;
     (if negb (truthy (user_uri c)) then
        _ <- test_connection ;; ret tt
      else ret tt) ;;
     c1 <- self ;;
     let user_param := user_uri c1 in
     response <- client_get (str_opt (base_url c1) ++ "/event_types")
                   (headers c1) [("user", user_param)] ;;
     if status_code response =? 200 then
       data <- lift (response_json response) ;;
       collection <- lift (get data "collection" (VList [])) ;;
       _ <- lift (len collection) ;;
       ret data
     else
       ret (soft_error response))
    (fun e => ret (VDict [("error", VStr (str_exn e))])).

(** [CalendlyClient.get_availability]. *)
Definition get_availability (event_type_uri start_time end_time : string)
    : M value :=
  try_except
    (c <- self ;;
     response <- client_get
                   (str_opt (base_url c) ++ "/event_type_available_times")
                   (headers c)
                   [("event_type", VStr event_type_uri);
                    ("start_time", VStr start_time);
                    ("end_time", VStr end_time)] ;;
     if status_code response =? 200 then
       data <- lift (response_json response) ;;
       collection <- lift (get data "collection" (VList [])) ;;
       _ <- lift (len collection) ;;
       ret data
     else
       ret (soft_error response))
    (fun e => ret (VDict [("error", VStr (str_exn e))])).

(** *** The route handlers *)

(** [startup_event]. *)
Definition startup_event : M unit :=
  _ <- test_connection ;; ret tt.

(** [root], the handler of [GET /]. *)
Definition root : M value :=
  ret (VDict [("message", VStr "Calendly Connection Test API is running!")]).

(** [test_calendly_connection], the handler of [GET /api/test-connection]. *)
Definition test_calendly_connection : M value :=
  result <- test_connection ;;
  if truthy result then
    resource <- lift (subscript result "resource") ;;
    name <- lift (subscript resource "name") ;;
    ret (VDict [("status", VStr "success"); ("user", name)])
  else
    ret (VDict [("status", VStr "error");
                ("message", VStr "Failed to connect to Calendly")]).

(** [get_calendly_events], the handler of [GET /api/calendly/events]. *)
Definition get_calendly_events : M value :=
  result <- get_event_types ;;
  ret result.

Definition event_type_prefix : string := "https://api.calendly.com/event_types/".

Definition api_prefix : string := "https://api.calendly.com/".

Definition availability_validation_error : exn :=
  RequestValidationError
    [VDict [("loc", VList [VStr "query"; VStr "appointment_type"]);
            ("msg", VStr "Invalid appointment_type. Please provide a valid appointment_type, You can get this from URI key in /api/calendly/events");
            ("type", VStr "value_error.invalid_appointment_type")]].

Definition booking_validation_error : exn :=
  RequestValidationError
    [VDict [("loc", VList [VStr "body"; VStr "appointment_type"]);
            ("msg", VStr "Invalid appointment_type. Please provide a valid event type URI.");
            ("type", VStr "value_error.invalid_appointment_type")]].

(** [get_calendly_availability], the handler of
    [GET /api/calendly/availability].  The three query parameters are
    required strings: the framework hands the handler nothing else. *)
Definition get_calendly_availability
    (appointment_type start_time end_time : string) : M value :=
  if negb (String.prefix event_type_prefix appointment_type) then
    raise availability_validation_error
  else
    result <- get_availability appointment_type start_time end_time ;;
    ret result.

(** The inbound check of the booking handler:
    [not appointment_type or not appointment_type.startswith(...)].
    [or] evaluates its right operand only when the left one is false. *)
Definition booking_rejects (appointment_type : value) : result bool :=
  if negb (truthy appointment_type) then inr true
  else
    match startswith appointment_type api_prefix with
    | inr b => inr (negb b)
    | inl e => inl e
    end.

(** The payload the booking handler posts upstream. *)
Definition calendly_payload (payload : list (string * value))
    (appointment_type : value) : value :=
  VDict [("max_event_count", dict_get payload "max_event_count" (VInt 1));
         ("owner", appointment_type);
         ("owner_type", dict_get payload "owner_type" (VStr "EventType"))].

(** [create_scheduling_link], the handler of [POST /api/calendly/book].
    The body is declared [dict], so the handler receives a JSON object. *)
Definition create_scheduling_link (payload : list (string * value))
    : M value :=
  let appointment_type := dict_get payload "appointment_type" VNone in
  rejected <- lift (booking_rejects appointment_type) ;;
  if (rejected : bool) then
    raise booking_validation_error
  else
    let outbound := calendly_payload payload appointment_type in
    try_except
      (c <- self ;;
       response <- client_post (str_opt (base_url c) ++ "/scheduling_links")
                     (headers c) outbound ;;
       if status_code response =? 201 then
         data <- lift (response_json response) ;;
         ret data
       else
         ret (soft_error response))
      (fun e =>
         raise (HTTPException 500
                  ("Error creating scheduling link: " ++ str_exn e))).

End App.

(* ================================================================== *)
(** ** The process: start-up and the inbound surface                   *)
(* ================================================================== *)

(** Loading the module runs [calendly_client = CalendlyClient()]; an
    exception there ends the process before it serves anything.  Otherwise
    the start-up hook runs the first connection test. *)
Definition boot (upstream : provider) (getenv : string -> option string)
    : result world :=
  match __init__ getenv with
  | inl e => inl e
  | inr c => inr (snd (startup_event upstream (mkWorld c [])))
  end.

(** The calls an inbound client can make. *)
Inductive call : Type :=
| Root
| TestConnection
| Events
| Availability (appointment_type start_time end_time : string)
| Book (payload : list (string * value)).

Definition handler (upstream : provider) (str_exn : exn -> string)
    (c : call) : M value :=
  match c with
  | Root => root
  | TestConnection => test_calendly_connection upstream
  | Events => get_calendly_events upstream str_exn
  | Availability a s e => get_calendly_availability upstream str_exn a s e
  | Book payload => create_scheduling_link upstream str_exn payload
  end.

(** What the inbound caller receives: an HTTP status and a body. *)
Record reply : Type := mkReply {
  reply_status : Z;
  reply_body : value
}.

(** The framework's part: a returned value is sent as a 200 response; its
    default handlers turn [RequestValidationError] into a 422 response that
    lists the errors and [HTTPException] into a response of the given
    status; any other exception leaves the handler unhandled and the server
    answers 500. *)
Definition respond (r : result value) : reply :=
  match r with
  | inr v => mkReply 200 v
  | inl (RequestValidationError errors) =>
      mkReply 422 (VDict [("detail", VList errors)])
  | inl (HTTPException status detail) =>
      mkReply status (VDict [("detail", VStr detail)])
  | inl _ => mkReply 500 (VStr "Internal Server Error")
  end.

(** Serving one inbound call. *)
Definition serve (upstream : provider) (str_exn : exn -> string)
    (c : call) (w : world) : reply * world :=
  let (r, w') := handler upstream str_exn c w in (respond r, w').

(** Serving a sequence of inbound calls, one after the other. *)
Fixpoint serve_all (upstream : provider) (str_exn : exn -> string)
    (cs : list call) (w : world) : world :=
  match cs with
  | [] => w
  | c :: rest =>
      serve_all upstream str_exn rest (snd (serve upstream str_exn c w))
  end.

(* ================================================================== *)
(** ** The requests the program puts on the wire                       *)
(* ================================================================== *)

(** The call of [test_connection]. *)
Definition whoami_request (c : CalendlyClient) : request :=
  mkRequest GET (str_opt (base_url c) ++ "/users/me") (headers c) [] None.

(** The call of [get_event_types], filtered by [user]. *)
Definition listing_request (c : CalendlyClient) (user : value) : request :=
  mkRequest GET (str_opt (base_url c) ++ "/event_types") (headers c)
    [("user", user)] None.

(** The call of [get_availability]. *)
Definition availability_request (c : CalendlyClient)
    (event_type_uri start_time end_time : string) : request :=
  mkRequest GET (str_opt (base_url c) ++ "/event_type_available_times")
    (headers c)
    [("event_type", VStr event_type_uri);
     ("start_time", VStr start_time);
     ("end_time", VStr end_time)] None.

(** The call of [create_scheduling_link] with JSON body [body]. *)
Definition booking_request (c : CalendlyClient) (body : value) : request :=
  mkRequest POST (str_opt (base_url c) ++ "/scheduling_links") (headers c)
    [] (Some body).

(** The part of the client that holds the credentials. *)
Definition credentials (c : CalendlyClient)
    : option string * string * list (string * string) :=
  (base_url c, token c, headers c).

(** The state after one more request has gone out. *)
Definition sent (rq : request) (w : world) : world :=
  mkWorld (calendly_client w) (wire w ++ [rq]).

(* ================================================================== *)
(** ** What the handlers make of an outcome                            *)
(* ================================================================== *)

(** The ways the "current user" call of [test_connection] can fail: no
    response at all, or a response whose status is not 200. *)
Definition connection_fails (upstream : provider) (w : world) : Prop :=
  (exists detail,
     upstream (wire w) (whoami_request (calendly_client w)) = Fails detail)
  \/ (exists r,
        upstream (wire w) (whoami_request (calendly_client w)) = Responds r
        /\ status_code r <> 200).

(** What the two client methods make of the outcome of their call: the
    decoded body on 200 (provided its [collection] can be counted), the
    soft error on another status, and an [error] entry alone when anything
    raised. *)
Definition counted_body (r : response) : result value :=
  match response_json r with
  | inl e => inl e
  | inr data =>
      match get data "collection" (VList []) with
      | inl e => inl e
      | inr collection =>
          match len collection with
          | inl e => inl e
          | inr _ => inr data
          end
      end
  end.

Definition handed_back (str_exn : exn -> string) (o : outcome) : value :=
  match o with
  | Fails detail => VDict [("error", VStr (str_exn (TransportError detail)))]
  | Responds r =>
      if status_code r =? 200 then
        match counted_body r with
        | inr data => data
        | inl e => VDict [("error", VStr (str_exn e))]
        end
      else soft_error r
  end.

(** The state in which [get_event_types] issues its own call: the current
    one when an identity is cached, the one a connection test leaves
    otherwise. *)
Definition identity_ensured (upstream : provider) (w : world) : world :=
  if truthy (user_uri (calendly_client w)) then w
  else snd (test_connection upstream w).

(** What the booking handler makes of the outcome of its call. *)
Definition booking_result (str_exn : exn -> string) (o : outcome)
    : result value :=
  match o with
  | Fails detail =>
      inl (HTTPException 500
             ("Error creating scheduling link: " ++
              str_exn (TransportError detail)))
  | Responds r =>
      if status_code r =? 201 then
        match json r with
        | Some data => inr data
        | None =>
            inl (HTTPException 500
                   ("Error creating scheduling link: " ++
                    str_exn JSONDecodeError))
        end
      else inr (soft_error r)
  end.

(* ================================================================== *)
(** ** Notions used to state what the program keeps                    *)
(* ================================================================== *)

(** [sep.join(l)], the inverse of [split]. *)
Fixpoint join_on (sep : ascii) (l : list string) : string :=
  match l with
  | [] => EmptyString
  | [x] => x
  | x :: rest => x ++ String sep (join_on sep rest)
  end.

(** The separator does not occur in [s]. *)
Definition free_of (sep : ascii) (s : string) : Prop :=
  ~ In sep (list_ascii_of_string s).

(** The four upstream paths the program calls. *)
Definition upstream_paths : list string :=
  ["/users/me"; "/event_types"; "/event_type_available_times";
   "/scheduling_links"].

(** A request built from the client's credentials: it carries the
    client's headers and goes to one of the four paths under its base
    URL. *)
Definition from_credentials (c : CalendlyClient) (rq : request) : Prop :=
  req_headers rq = headers c
  /\ exists path,
       In path upstream_paths /\ url rq = str_opt (base_url c) ++ path.

(** The body of the 422 reply of the booking endpoint. *)
Definition booking_422 : reply :=
  mkReply 422
    (VDict
       [("detail",
         VList
           [VDict
              [("loc", VList [VStr "body"; VStr "appointment_type"]);
               ("msg", VStr "Invalid appointment_type. Please provide a valid event type URI.");
               ("type", VStr "value_error.invalid_appointment_type")]])]).

(* ================================================================== *)
(** ** Sample environments, providers and payloads                     *)
(* ================================================================== *)

Module Sample.

Definition env (k : string) : option string :=
  if (k =? "BASE_URL")%string then Some "https://api.calendly.com"
  else if (k =? "CALENDLY_API_TOKEN")%string then Some "s3cr3t"
  else None.

Definition env_without_token (k : string) : option string :=
  if (k =? "BASE_URL")%string then Some "https://api.calendly.com"
  else None.

Definition fresh_client : CalendlyClient :=
  mkClient (Some "https://api.calendly.com") "s3cr3t"
    [("Authorization", "Bearer s3cr3t");
     ("Content-Type", "application/json")]
    VNone VNone.

Definition account : string := "https://api.calendly.com/users/AAAA".

Definition known_client : CalendlyClient :=
  with_user_uuid (VStr "AAAA") (with_user_uri (VStr account) fresh_client).

Definition fresh : world := mkWorld fresh_client [].

Definition known : world := mkWorld known_client [].

(** A rendering of exceptions in the manner of [str(e)]. *)
Definition render (e : exn) : string :=
  match e with
  | ValueError msg => msg
  | KeyError key => "'" ++ key ++ "'"
  | IndexError => "list index out of range"
  | TypeError => "unsupported operand"
  | AttributeError attr => "object has no attribute '" ++ attr ++ "'"
  | JSONDecodeError => "Expecting value: line 1 column 1 (char 0)"
  | TransportError detail => detail
  | RequestValidationError _ => "validation error"
  | HTTPException _ detail => detail
  end.

(** A provider that gives every request the same outcome. *)
Definition always (o : outcome) : provider := fun _ _ => o.

Definition unreachable : provider := always (Fails "All connection attempts failed").

Definition user_payload : value :=
  VDict [("resource",
          VDict [("uri", VStr account); ("name", VStr "Front Desk")])].

(** A "current user" payload without the [name] entry. *)
Definition nameless_payload : value :=
  VDict [("resource", VDict [("uri", VStr account)])].

Definition slots : value :=
  VDict [("collection",
          VList [VDict [("status", VStr "available");
                        ("start_time", VStr "2025-11-15T09:00:00Z")];
                 VDict [("status", VStr "available");
                        ("start_time", VStr "2025-11-15T10:00:00Z")]])].


Definition ok (body : value) : response := mkResponse 200 "{...}" (Some body).


Definition unauthorized : response :=
  mkResponse 401 "Unauthenticated" None.

Definition event_type : string := "https://api.calendly.com/event_types/abc".

Definition user_resource : string := "https://api.calendly.com/users/x".

(** An environment in which the token variable is set to nothing. *)
Definition env_empty_token (k : string) : option string :=
  if (k =? "BASE_URL")%string then Some "https://api.calendly.com"
  else if (k =? "CALENDLY_API_TOKEN")%string then Some EmptyString
  else None.


(** A "current user" payload whose [uri] is the empty string. *)
Definition empty_uri_payload : value :=
  VDict [("resource",
          VDict [("uri", VStr EmptyString); ("name", VStr "Front Desk")])].

(** An environment that sets the token and no base URL. *)
Definition env_without_base (k : string) : option string :=
  if (k =? "CALENDLY_API_TOKEN")%string then Some "s3cr3t" else None.

(** A "current user" payload whose [uri] is a number. *)
Definition numeric_uri_payload : value :=
  VDict [("resource", VDict [("uri", VInt 7); ("name", VStr "Front Desk")])].

(** A 200 body whose [collection] cannot be counted. *)
Definition uncounted : value := VDict [("collection", VInt 3)].

(** A 200 body without a [collection]. *)
Definition bare : value := VDict [("next_page", VNone)].

End Sample.

(* ================================================================== *)
(** ** Running the monad                                               *)
(* ================================================================== *)

Lemma send_run (upstream : provider) (rq : request) (w : world) :
  send upstream rq w =
    (match upstream (wire w) rq with
     | Responds r => inr r
     | Fails detail => inl (TransportError detail)
     end, sent rq w).
Proof. unfold send, sent. destruct (upstream (wire w) rq); reflexivity. Qed.

(** Unfold the monad and split on whatever the program branches on. *)
Ltac unfold_monad :=
  unfold try_except, bind, self, ret, raise, lift, set_user_uri,
    set_user_uuid, client_get, client_post, response_json in *.

Ltac split_match :=
  match goal with
  | |- context [match ?x with _ => _ end] =>
      lazymatch x with
      | context [match _ with _ => _ end] => fail
      | _ => destruct x eqn:?
      end
  end.


(* ================================================================== *)
(** ** Strings                                                         *)
(* ================================================================== *)

Lemma split_on_nonempty (sep : ascii) (s : string) : split_on sep s <> [].
Proof.
  induction s as [|c s IH]; cbn; [discriminate|].
  destruct (Ascii.eqb c sep); [discriminate|].
  destruct (split_on sep s); [contradiction|discriminate].
Qed.

Lemma last_item_defined (l : list string) :
  l <> [] -> exists x, last_item l = inr x.
Proof.
  induction l as [|a l IH]; [congruence|]; intros _.
  destruct l as [|b l]; [exists a; reflexivity|].
  apply IH. discriminate.
Qed.

Lemma prefix_app (p q s : string) :
  String.prefix (p ++ q) s = true -> String.prefix p s = true.
Proof.
  revert s; induction p as [|c p IH]; intros s H.
  - destruct s; reflexivity.
  - destruct s as [|d s]; simpl in *; [discriminate|].
    destruct (ascii_dec c d); [apply IH; exact H|discriminate].
Qed.

Lemma prefix_truthy (p s : string) :
  p <> EmptyString -> String.prefix p s = true -> truthy (VStr s) = true.
Proof.
  intros Hp H. destruct s as [|c s]; [|reflexivity].
  destruct p; [congruence|discriminate].
Qed.

(* ================================================================== *)
(** ** The connection test                                             *)
(* ================================================================== *)

Section ConnectionTest.

Variable upstream : provider.

(** Whatever happens, the connection test sends exactly one request. *)
Lemma test_connection_wire (w : world) :
  wire (snd (test_connection upstream w)) =
    (wire w ++ [whoami_request (calendly_client w)])%list.
Proof.
  unfold test_connection, whoami_request. unfold_monad.
  rewrite send_run. cbn. repeat (split_match; cbn; try reflexivity).
Qed.

(** The connection test hands every exception over as [None]. *)
Lemma test_connection_returns (w : world) :
  exists v, fst (test_connection upstream w) = inr v.
Proof.
  unfold test_connection. unfold_monad.
  rewrite send_run. cbn. repeat (split_match; cbn; eauto).
Qed.

Lemma test_connection_credentials (w : world) :
  credentials (calendly_client (snd (test_connection upstream w))) =
    credentials (calendly_client w).
Proof.
  unfold test_connection. unfold_monad.
  rewrite send_run. cbn. repeat (split_match; cbn; try reflexivity).
Qed.

Lemma test_connection_no_answer (w : world) (detail : string) :
  upstream (wire w) (whoami_request (calendly_client w)) = Fails detail ->
  test_connection upstream w =
    (inr VNone, sent (whoami_request (calendly_client w)) w).
Proof.
  intros H. unfold test_connection. unfold_monad.
  rewrite send_run. fold (whoami_request (calendly_client w)).
  rewrite H. reflexivity.
Qed.

Lemma test_connection_bad_status (w : world) (r : response) :
  upstream (wire w) (whoami_request (calendly_client w)) = Responds r ->
  status_code r <> 200 ->
  test_connection upstream w =
    (inr VNone, sent (whoami_request (calendly_client w)) w).
Proof.
  intros H Hs. unfold test_connection. unfold_monad.
  rewrite send_run. fold (whoami_request (calendly_client w)).
  rewrite H. apply Z.eqb_neq in Hs. rewrite Hs. reflexivity.
Qed.

End ConnectionTest.

Lemma test_connection_failed (upstream : provider) (w : world) :
  connection_fails upstream w ->
  test_connection upstream w =
    (inr VNone, sent (whoami_request (calendly_client w)) w).
Proof.
  intros [[detail H]|[r [H Hs]]].
  - eapply test_connection_no_answer; eassumption.
  - eapply test_connection_bad_status; eassumption.
Qed.

Lemma test_connection_ok (upstream : provider) (w : world) (r : response)
    (data resource name : value) (u : string) :
  upstream (wire w) (whoami_request (calendly_client w)) = Responds r ->
  status_code r = 200 ->
  json r = Some data ->
  subscript data "resource" = inr resource ->
  subscript resource "uri" = inr (VStr u) ->
  subscript resource "name" = inr name ->
  exists uuid,
    last_item (split_on "/" u) = inr uuid /\
    test_connection upstream w =
      (inr data,
       mkWorld (with_user_uuid (VStr uuid)
                  (with_user_uri (VStr u) (calendly_client w)))
               (wire w ++ [whoami_request (calendly_client w)])).
Proof.
  intros H Hs Hj Hres Huri Hname.
  destruct (last_item_defined (split_on "/" u) (split_on_nonempty _ _))
    as [uuid Huuid].
  exists uuid. split; [exact Huuid|].
  unfold test_connection. unfold_monad.
  rewrite send_run. fold (whoami_request (calendly_client w)).
  rewrite H, Hs, Hj. cbn. rewrite Hres, Huri. cbn.
  rewrite Huuid, Hname. reflexivity.
Qed.

(** The identity is stored as soon as it is read: the [name] entry plays
    no part in that. *)
Lemma test_connection_caches (upstream : provider) (w : world) (r : response)
    (data resource : value) (u : string) :
  upstream (wire w) (whoami_request (calendly_client w)) = Responds r ->
  status_code r = 200 ->
  json r = Some data ->
  subscript data "resource" = inr resource ->
  subscript resource "uri" = inr (VStr u) ->
  user_uri (calendly_client (snd (test_connection upstream w))) = VStr u.
Proof.
  intros H Hs Hj Hres Huri.
  destruct (last_item_defined (split_on "/" u) (split_on_nonempty _ _))
    as [uuid Huuid].
  unfold test_connection. unfold_monad.
  rewrite send_run. fold (whoami_request (calendly_client w)).
  rewrite H, Hs, Hj. cbn. rewrite Hres, Huri. cbn.
  rewrite Huuid. destruct (subscript resource "name"); reflexivity.
Qed.

(** C9.  A connection test that fails, because the upstream gives no
    response or a response whose status is not 200, leaves [user_uri] and
    [user_uuid] exactly as they were: an identity cached by an earlier
    successful call is neither cleared nor overwritten. *)
Theorem failed_connection_test_keeps_identity
    (upstream : provider) (w : world) :
  connection_fails upstream w ->
  user_uri (calendly_client (snd (test_connection upstream w))) =
    user_uri (calendly_client w)
  /\ user_uuid (calendly_client (snd (test_connection upstream w))) =
       user_uuid (calendly_client w).
Proof.
  intros H. rewrite (test_connection_failed _ _ H). split; reflexivity.
Qed.

Lemma failed_connection_test_keeps_identity_witness :
  connection_fails Sample.unreachable Sample.known
  /\ user_uri (calendly_client
                 (snd (test_connection Sample.unreachable Sample.known))) =
       VStr Sample.account
  /\ user_uuid (calendly_client
                  (snd (test_connection Sample.unreachable Sample.known))) =
       VStr "AAAA".
Proof.
  assert (H : connection_fails Sample.unreachable Sample.known).
  { left. eexists. reflexivity. }
  split; [exact H|].
  exact (failed_connection_test_keeps_identity
           Sample.unreachable Sample.known H).
Defined.

(** C5, as amended.  On a 200 response whose JSON payload holds a
    [resource] with a string [uri] and a [name], the connection test caches
    the account URI and the segment after its last slash and returns the
    payload.  When the upstream gives no response or a status other than
    200 it returns [None] and raises nothing, the identity fields stay as
    they were, and the test-connection endpoint answers with the body
    [{status: "error", message}]. *)
Theorem connection_test_outcomes
    (upstream : provider) (str_exn : exn -> string) (w : world) :
  (forall r data resource name u,
      upstream (wire w) (whoami_request (calendly_client w)) = Responds r ->
      status_code r = 200 ->
      json r = Some data ->
      subscript data "resource" = inr resource ->
      subscript resource "uri" = inr (VStr u) ->
      subscript resource "name" = inr name ->
      exists uuid,
        last_item (split_on "/" u) = inr uuid /\
        fst (test_connection upstream w) = inr data /\
        user_uri (calendly_client (snd (test_connection upstream w))) =
          VStr u /\
        user_uuid (calendly_client (snd (test_connection upstream w))) =
          VStr uuid)
  /\ (connection_fails upstream w ->
      fst (test_connection upstream w) = inr VNone /\
      calendly_client (snd (test_connection upstream w)) = calendly_client w /\
      serve upstream str_exn TestConnection w =
        (mkReply 200
           (VDict [("status", VStr "error");
                   ("message", VStr "Failed to connect to Calendly")]),
         sent (whoami_request (calendly_client w)) w)).
Proof.
  split.
  - intros r data resource name u H Hs Hj Hres Huri Hname.
    destruct (test_connection_ok _ _ _ _ _ _ _ H Hs Hj Hres Huri Hname)
      as [uuid [Huuid Hrun]].
    exists uuid. rewrite Hrun. repeat split; assumption || reflexivity.
  - intros H. pose proof (test_connection_failed _ _ H) as Hrun.
    rewrite Hrun. repeat split.
    unfold serve, handler, test_calendly_connection. unfold_monad.
    rewrite Hrun. reflexivity.
Qed.

Lemma connection_test_outcomes_witness :
  (exists uuid,
      last_item (split_on "/" Sample.account) = inr uuid /\
      fst (test_connection
             (Sample.always (Responds (Sample.ok Sample.user_payload)))
             Sample.fresh) = inr Sample.user_payload /\
      user_uri (calendly_client
                  (snd (test_connection
                          (Sample.always
                             (Responds (Sample.ok Sample.user_payload)))
                          Sample.fresh))) = VStr Sample.account /\
      user_uuid (calendly_client
                   (snd (test_connection
                           (Sample.always
                              (Responds (Sample.ok Sample.user_payload)))
                           Sample.fresh))) = VStr uuid)
  /\ fst (test_connection Sample.unreachable Sample.fresh) = inr VNone.
Proof.
  split.
  - apply (proj1 (connection_test_outcomes
                    (Sample.always (Responds (Sample.ok Sample.user_payload)))
                    Sample.render Sample.fresh)
             (Sample.ok Sample.user_payload) Sample.user_payload
             (VDict [("uri", VStr Sample.account);
                     ("name", VStr "Front Desk")])
             (VStr "Front Desk") Sample.account);
      reflexivity.
  - apply (proj2 (connection_test_outcomes
                    Sample.unreachable Sample.render Sample.fresh)).
    left. eexists. reflexivity.
Defined.

(** C5, as stated, fails: a 200 response whose payload has no [name] entry
    makes the connection test cache the identity and still return [None],
    not the payload. *)
Lemma connection_test_200_returns_none :
  status_code (Sample.ok Sample.nameless_payload) = 200
  /\ test_connection
       (Sample.always (Responds (Sample.ok Sample.nameless_payload)))
       Sample.fresh =
     (inr VNone,
      mkWorld Sample.known_client [whoami_request Sample.fresh_client])
  /\ fst (test_connection
            (Sample.always (Responds (Sample.ok Sample.nameless_payload)))
            Sample.fresh) <> inr Sample.nameless_payload.
Proof.
  split; [reflexivity|]. split; [reflexivity|]. cbn. discriminate.
Qed.

(* ================================================================== *)
(** ** Listing and availability                                        *)
(* ================================================================== *)

Section ClientMethods.

Variable upstream : provider.
Variable str_exn : exn -> string.

Lemma get_availability_run (a s e : string) (w : world) :
  get_availability upstream str_exn a s e w =
    (inr (handed_back str_exn
            (upstream (wire w)
               (availability_request (calendly_client w) a s e))),
     sent (availability_request (calendly_client w) a s e) w).
Proof.
  unfold get_availability, handed_back, counted_body. unfold_monad.
  rewrite send_run. fold (availability_request (calendly_client w) a s e).
  destruct (upstream _ _) as [r|detail]; cbn; [|reflexivity].
  destruct (status_code r =? 200); cbn; [|reflexivity].
  destruct (json r) as [data|]; cbn; [|reflexivity].
  destruct (get data "collection" (VList [])) as [err|collection]; cbn;
    [reflexivity|].
  destruct (len collection); reflexivity.
Qed.

Lemma get_event_types_run (w : world) :
  let w1 := identity_ensured upstream w in
  let rq := listing_request (calendly_client w1)
              (user_uri (calendly_client w1)) in
  get_event_types upstream str_exn w =
    (inr (handed_back str_exn (upstream (wire w1) rq)), sent rq w1).
Proof.
  cbv zeta. unfold identity_ensured.
  assert (Hrest : forall w1 : world,
    try_except
      (c1 <- self ;;
       response <- client_get upstream
                     (str_opt (base_url c1) ++ "/event_types")
                     (headers c1) [("user", user_uri c1)] ;;
       if status_code response =? 200 then
         data <- lift (response_json response) ;;
         collection <- lift (get data "collection" (VList [])) ;;
         _ <- lift (len collection) ;;
         ret data
       else ret (soft_error response))
      (fun e => ret (VDict [("error", VStr (str_exn e))])) w1 =
    (inr (handed_back str_exn
            (upstream (wire w1)
               (listing_request (calendly_client w1)
                  (user_uri (calendly_client w1))))),
     sent (listing_request (calendly_client w1)
             (user_uri (calendly_client w1))) w1)).
  { intros w1. unfold handed_back, counted_body. unfold_monad.
    rewrite send_run.
    fold (listing_request (calendly_client w1) (user_uri (calendly_client w1))).
    destruct (upstream _ _) as [r|detail]; cbn; [|reflexivity].
    destruct (status_code r =? 200); cbn; [|reflexivity].
    destruct (json r) as [data|]; cbn; [|reflexivity].
    destruct (get data "collection" (VList [])) as [err|collection]; cbn;
      [reflexivity|].
    destruct (len collection); reflexivity. }
  unfold get_event_types.
  destruct (truthy (user_uri (calendly_client w))) eqn:Hc.
  - rewrite <- Hrest. unfold try_except, bind at 1 2, self at 1.
    rewrite Hc. reflexivity.
  - rewrite <- Hrest. unfold try_except, bind at 1 2, self at 1.
    rewrite Hc. cbn [negb]. unfold bind at 1.
    destruct (test_connection_returns upstream w) as [v Hv].
    destruct (test_connection upstream w) as [res w1]. cbn in Hv. subst res.
    reflexivity.
Qed.

(** Neither method raises. *)
Lemma client_methods_return (a s e : string) (w : world) :
  (exists v, fst (get_event_types upstream str_exn w) = inr v)
  /\ (exists v, fst (get_availability upstream str_exn a s e w) = inr v).
Proof.
  split.
  - rewrite get_event_types_run. eexists. reflexivity.
  - rewrite get_availability_run. eexists. reflexivity.
Qed.

End ClientMethods.

(** C3, as amended.  A 200 answer to the "current user" call whose payload
    holds a string [uri] leaves that URI in [user_uri].  In every state where an identity
    is cached, listing event types sends one request only, the listing
    filtered by the cached identity as its [user] parameter, and so does
    not fetch the identity again.  Where none is cached, listing event
    types runs the connection test first and filters by what that left in
    [user_uri].  So a listing that follows a connection test which cached
    a non-empty URI adds the one listing request, filtered by that URI. *)
Theorem listing_uses_cached_identity
    (upstream : provider) (str_exn : exn -> string) (w : world) :
  (forall r data resource u,
      upstream (wire w) (whoami_request (calendly_client w)) = Responds r ->
      status_code r = 200 ->
      json r = Some data ->
      subscript data "resource" = inr resource ->
      subscript resource "uri" = inr (VStr u) ->
      user_uri (calendly_client (snd (test_connection upstream w))) = VStr u)
  /\ (truthy (user_uri (calendly_client w)) = true ->
      wire (snd (get_event_types upstream str_exn w)) =
        (wire w ++
         [listing_request (calendly_client w)
            (user_uri (calendly_client w))])%list)
  /\ (truthy (user_uri (calendly_client w)) = false ->
      wire (snd (get_event_types upstream str_exn w)) =
        (wire w ++
         [whoami_request (calendly_client w);
          listing_request (calendly_client w)
            (user_uri (calendly_client
                         (snd (test_connection upstream w))))])%list)
  /\ (forall r data resource u,
      upstream (wire w) (whoami_request (calendly_client w)) = Responds r ->
      status_code r = 200 ->
      json r = Some data ->
      subscript data "resource" = inr resource ->
      subscript resource "uri" = inr (VStr u) ->
      u <> EmptyString ->
      wire (snd (get_event_types upstream str_exn
                   (snd (test_connection upstream w)))) =
        (wire w ++
         [whoami_request (calendly_client w);
          listing_request (calendly_client w) (VStr u)])%list).
Proof.
  split; [|split; [|split]]; cycle 3.
  - intros r data resource u H Hs Hj Hres Huri Hne.
    pose proof (test_connection_caches _ _ _ _ _ _ H Hs Hj Hres Huri) as Hu.
    pose proof (test_connection_credentials upstream w) as Hcred.
    pose proof (test_connection_wire upstream w) as Hwire.
    rewrite get_event_types_run. unfold identity_ensured.
    rewrite Hu. cbn [truthy].
    destruct (String.eqb_spec u EmptyString) as [|_]; [contradiction|].
    cbn [negb]. unfold sent, listing_request. cbn [wire snd].
    rewrite Hwire.
    unfold credentials in Hcred. injection Hcred as Hb _ Hh.
    rewrite Hb, Hh, Hu, <- app_assoc. reflexivity.
  - intros r data resource u. apply test_connection_caches.
  - intros Hc. rewrite get_event_types_run. unfold identity_ensured.
    rewrite Hc. reflexivity.
  - intros Hc. rewrite get_event_types_run. unfold identity_ensured.
    rewrite Hc. unfold sent, listing_request. cbn [wire snd].
    rewrite test_connection_wire.
    pose proof (test_connection_credentials upstream w) as Hcred.
    unfold credentials in Hcred. injection Hcred as Hb _ Hh.
    rewrite Hb, Hh, <- app_assoc. reflexivity.
Qed.

Lemma listing_uses_cached_identity_witness :
  user_uri (calendly_client
              (snd (test_connection
                      (Sample.always (Responds (Sample.ok Sample.user_payload)))
                      Sample.fresh))) = VStr Sample.account
  /\ wire (snd (get_event_types Sample.unreachable Sample.render
                  Sample.known)) =
       [listing_request Sample.known_client (VStr Sample.account)]
  /\ wire (snd (get_event_types Sample.unreachable Sample.render
                  Sample.fresh)) =
       [whoami_request Sample.fresh_client;
        listing_request Sample.fresh_client VNone]
  /\ wire (snd (get_event_types
                  (Sample.always (Responds (Sample.ok Sample.user_payload)))
                  Sample.render
                  (snd (test_connection
                          (Sample.always
                             (Responds (Sample.ok Sample.user_payload)))
                          Sample.fresh)))) =
       [whoami_request Sample.fresh_client;
        listing_request Sample.fresh_client (VStr Sample.account)].
Proof.
  split; [|split; [|split]]; cycle 3.
  - apply (proj2 (proj2 (proj2 (listing_uses_cached_identity
                    (Sample.always (Responds (Sample.ok Sample.user_payload)))
                    Sample.render Sample.fresh)))
             (Sample.ok Sample.user_payload) Sample.user_payload
             (VDict [("uri", VStr Sample.account);
                     ("name", VStr "Front Desk")])
             Sample.account);
      reflexivity || discriminate.
  - apply (proj1 (listing_uses_cached_identity
                    (Sample.always (Responds (Sample.ok Sample.user_payload)))
                    Sample.render Sample.fresh)
             (Sample.ok Sample.user_payload) Sample.user_payload
             (VDict [("uri", VStr Sample.account);
                     ("name", VStr "Front Desk")])
             Sample.account);
      reflexivity.
  - apply (proj1 (proj2 (listing_uses_cached_identity
                           Sample.unreachable Sample.render Sample.known))).
    reflexivity.
  - apply (proj1 (proj2 (proj2 (listing_uses_cached_identity
                                  Sample.unreachable Sample.render
                                  Sample.fresh)))).
    reflexivity.
Defined.

(** C3, as stated, fails: a 200 answer to the "current user" call whose
    payload holds no [uri] caches nothing, and the listing that follows
    fetches the identity again; and when the [uri] it holds is the empty
    string, that is what is cached, and the listing that follows fetches
    the identity again all the same. *)
Lemma ok_answer_need_not_cache_identity :
  status_code (Sample.ok (VDict [])) = 200
  /\ user_uri (calendly_client
                 (snd (test_connection
                         (Sample.always (Responds (Sample.ok (VDict []))))
                         Sample.fresh))) = VNone
  /\ wire (snd (get_event_types
                  (Sample.always (Responds (Sample.ok (VDict []))))
                  Sample.render
                  (snd (test_connection
                          (Sample.always (Responds (Sample.ok (VDict []))))
                          Sample.fresh)))) =
       [whoami_request Sample.fresh_client;
        whoami_request Sample.fresh_client;
        listing_request Sample.fresh_client VNone]
  /\ user_uri (calendly_client
                 (snd (test_connection
                         (Sample.always
                            (Responds (Sample.ok Sample.empty_uri_payload)))
                         Sample.fresh))) = VStr EmptyString
  /\ wire (snd (get_event_types
                  (Sample.always
                     (Responds (Sample.ok Sample.empty_uri_payload)))
                  Sample.render
                  (snd (test_connection
                          (Sample.always
                             (Responds (Sample.ok Sample.empty_uri_payload)))
                          Sample.fresh)))) =
       [whoami_request Sample.fresh_client;
        whoami_request Sample.fresh_client;
        listing_request Sample.fresh_client (VStr EmptyString)].
Proof. repeat split. Qed.

(** C7, as amended.  Neither client method raises.  When the upstream
    answers the listing or the availability call with a status other than
    200, the method returns a payload with an [error] entry that embeds the
    status and a [details] entry that holds the response text.  When the
    call gets no response, the method returns a payload whose only entry is
    [error], the text of the exception. *)
Theorem client_methods_soft_failures
    (upstream : provider) (str_exn : exn -> string) (w : world)
    (a s e : string) :
  (forall r,
      upstream (wire (identity_ensured upstream w))
        (listing_request (calendly_client (identity_ensured upstream w))
           (user_uri (calendly_client (identity_ensured upstream w)))) =
        Responds r ->
      status_code r <> 200 ->
      fst (get_event_types upstream str_exn w) =
        inr (VDict [("error",
                     VStr ("Calendly returned " ++ str_int (status_code r)));
                    ("details", VStr (text r))]))
  /\ (forall detail,
      upstream (wire (identity_ensured upstream w))
        (listing_request (calendly_client (identity_ensured upstream w))
           (user_uri (calendly_client (identity_ensured upstream w)))) =
        Fails detail ->
      fst (get_event_types upstream str_exn w) =
        inr (VDict [("error", VStr (str_exn (TransportError detail)))]))
  /\ (forall r,
      upstream (wire w) (availability_request (calendly_client w) a s e) =
        Responds r ->
      status_code r <> 200 ->
      fst (get_availability upstream str_exn a s e w) =
        inr (VDict [("error",
                     VStr ("Calendly returned " ++ str_int (status_code r)));
                    ("details", VStr (text r))]))
  /\ (forall detail,
      upstream (wire w) (availability_request (calendly_client w) a s e) =
        Fails detail ->
      fst (get_availability upstream str_exn a s e w) =
        inr (VDict [("error", VStr (str_exn (TransportError detail)))])).
Proof.
  repeat split.
  - intros r H Hs. rewrite get_event_types_run. cbv zeta. rewrite H.
    apply Z.eqb_neq in Hs. cbn. rewrite Hs. reflexivity.
  - intros detail H. rewrite get_event_types_run. cbv zeta. rewrite H.
    reflexivity.
  - intros r H Hs. rewrite get_availability_run. rewrite H.
    apply Z.eqb_neq in Hs. cbn. rewrite Hs. reflexivity.
  - intros detail H. rewrite get_availability_run. rewrite H. reflexivity.
Qed.

Lemma client_methods_soft_failures_witness :
  fst (get_event_types (Sample.always (Responds Sample.unauthorized))
         Sample.render Sample.known) =
    inr (VDict [("error", VStr "Calendly returned 401");
                ("details", VStr "Unauthenticated")])
  /\ fst (get_event_types Sample.unreachable Sample.render Sample.known) =
       inr (VDict [("error", VStr "All connection attempts failed")])
  /\ fst (get_availability (Sample.always (Responds Sample.unauthorized))
            Sample.render Sample.event_type "2025-11-14T20:00:00.000000Z"
            "2025-11-20T20:00:00.000000Z" Sample.fresh) =
       inr (VDict [("error", VStr "Calendly returned 401");
                   ("details", VStr "Unauthenticated")])
  /\ fst (get_availability Sample.unreachable Sample.render
            Sample.event_type "2025-11-14T20:00:00.000000Z"
            "2025-11-20T20:00:00.000000Z" Sample.fresh) =
       inr (VDict [("error", VStr "All connection attempts failed")]).
Proof.
  split; [|split; [|split]].
  - apply (proj1 (client_methods_soft_failures
                    (Sample.always (Responds Sample.unauthorized))
                    Sample.render Sample.known Sample.event_type
                    "2025-11-14T20:00:00.000000Z"
                    "2025-11-20T20:00:00.000000Z") Sample.unauthorized);
      [reflexivity | cbn; lia].
  - apply (proj1 (proj2 (client_methods_soft_failures
                           Sample.unreachable Sample.render Sample.known
                           Sample.event_type "2025-11-14T20:00:00.000000Z"
                           "2025-11-20T20:00:00.000000Z"))
             "All connection attempts failed").
    reflexivity.
  - apply (proj1 (proj2 (proj2 (client_methods_soft_failures
                                  (Sample.always (Responds Sample.unauthorized))
                                  Sample.render Sample.fresh Sample.event_type
                                  "2025-11-14T20:00:00.000000Z"
                                  "2025-11-20T20:00:00.000000Z")))
             Sample.unauthorized);
      [reflexivity | cbn; lia].
  - apply (proj2 (proj2 (proj2 (client_methods_soft_failures
                                  Sample.unreachable Sample.render
                                  Sample.fresh Sample.event_type
                                  "2025-11-14T20:00:00.000000Z"
                                  "2025-11-20T20:00:00.000000Z")))
             "All connection attempts failed").
    reflexivity.
Defined.

(** C7, as stated, fails: when the upstream cannot be reached, both client
    methods return a payload that has an [error] entry and no [details]
    entry. *)
Lemma transport_failure_has_no_details :
  get_availability Sample.unreachable Sample.render Sample.event_type
    "2025-11-14T20:00:00.000000Z" "2025-11-20T20:00:00.000000Z"
    Sample.fresh =
    (inr (VDict [("error", VStr "All connection attempts failed")]),
     sent (availability_request Sample.fresh_client Sample.event_type
             "2025-11-14T20:00:00.000000Z" "2025-11-20T20:00:00.000000Z")
       Sample.fresh)
  /\ fst (get_event_types Sample.unreachable Sample.render Sample.known) =
       inr (VDict [("error", VStr "All connection attempts failed")])
  /\ subscript (VDict [("error", VStr "All connection attempts failed")])
       "details" = inl (KeyError "details").
Proof. repeat split. Qed.

(* ================================================================== *)
(** ** The availability endpoint                                       *)
(* ================================================================== *)

(** C1.  When [appointment_type] does not begin with
    ["https://api.calendly.com/event_types/"], the availability endpoint
    answers 422 with a validation error whose location is the query
    parameter [appointment_type], and the process state, the list of
    outbound requests included, is what it was: nothing is sent upstream,
    whatever the upstream is. *)
Theorem availability_rejects_foreign_uri
    (upstream : provider) (str_exn : exn -> string)
    (appointment_type start_time end_time : string) (w : world) :
  String.prefix "https://api.calendly.com/event_types/" appointment_type
    = false ->
  serve upstream str_exn
    (Availability appointment_type start_time end_time) w =
    (mkReply 422
       (VDict
          [("detail",
            VList
              [VDict
                 [("loc", VList [VStr "query"; VStr "appointment_type"]);
                  ("msg", VStr "Invalid appointment_type. Please provide a valid appointment_type, You can get this from URI key in /api/calendly/events");
                  ("type", VStr "value_error.invalid_appointment_type")]])]),
     w).
Proof.
  intros H. unfold serve, handler, get_calendly_availability.
  unfold event_type_prefix. rewrite H. reflexivity.
Qed.

Lemma availability_rejects_foreign_uri_witness :
  reply_status
    (fst (serve Sample.unreachable Sample.render
            (Availability Sample.user_resource "2025-11-14T20:00:00.000000Z"
               "2025-11-20T20:00:00.000000Z") Sample.known)) = 422
  /\ snd (serve Sample.unreachable Sample.render
            (Availability Sample.user_resource "2025-11-14T20:00:00.000000Z"
               "2025-11-20T20:00:00.000000Z") Sample.known) = Sample.known.
Proof.
  rewrite (availability_rejects_foreign_uri Sample.unreachable Sample.render
             Sample.user_resource "2025-11-14T20:00:00.000000Z"
             "2025-11-20T20:00:00.000000Z" Sample.known);
    [split; reflexivity | reflexivity].
Defined.



(* ================================================================== *)
(** ** The booking endpoint                                            *)
(* ================================================================== *)

(** The inbound check lets through the strings that begin with
    ["https://api.calendly.com/"], and nothing else. *)
Lemma booking_accepts_iff (v : value) :
  booking_rejects v = inr false <->
  exists a, v = VStr a /\ String.prefix api_prefix a = true.
Proof.
  unfold booking_rejects. split.
  - destruct (truthy v) eqn:Ht; cbn; [|discriminate].
    destruct v; cbn; try discriminate.
    intros H. exists s. split; [reflexivity|].
    destruct (String.prefix api_prefix s); [reflexivity|discriminate].
  - intros [a [-> Hp]].
    rewrite (prefix_truthy api_prefix a); [|discriminate|exact Hp].
    cbn. rewrite Hp. reflexivity.
Qed.

Section Booking.

Variable upstream : provider.
Variable str_exn : exn -> string.

Lemma create_scheduling_link_run (payload : list (string * value))
    (w : world) :
  booking_rejects (dict_get payload "appointment_type" VNone) = inr false ->
  create_scheduling_link upstream str_exn payload w =
    (booking_result str_exn
       (upstream (wire w)
          (booking_request (calendly_client w)
             (calendly_payload payload
                (dict_get payload "appointment_type" VNone)))),
     sent (booking_request (calendly_client w)
             (calendly_payload payload
                (dict_get payload "appointment_type" VNone))) w).
Proof.
  intros H. unfold create_scheduling_link, booking_result. unfold_monad.
  rewrite H. rewrite send_run.
  fold (booking_request (calendly_client w)
          (calendly_payload payload
             (dict_get payload "appointment_type" VNone))).
  destruct (upstream _ _) as [r|detail]; cbn; [|reflexivity].
  destruct (status_code r =? 201); cbn; [|reflexivity].
  destruct (json r); reflexivity.
Qed.

Lemma create_scheduling_link_rejected (payload : list (string * value))
    (w : world) :
  booking_rejects (dict_get payload "appointment_type" VNone) = inr true ->
  create_scheduling_link upstream str_exn payload w =
    (inl booking_validation_error, w).
Proof.
  intros H. unfold create_scheduling_link. unfold_monad.
  rewrite H. reflexivity.
Qed.

End Booking.




(** C6.  For a booking request whose [appointment_type] passes the inbound
    check, the one request sent upstream is a POST whose JSON body has
    [owner] equal to the supplied [appointment_type], [owner_type] equal to
    ["EventType"] when the request omits it, and [max_event_count] equal to
    1 when the request omits it. *)
Theorem booking_payload_defaults
    (upstream : provider) (str_exn : exn -> string)
    (payload : list (string * value)) (a : string) (w : world) :
  lookup "appointment_type" payload = Some (VStr a) ->
  String.prefix "https://api.calendly.com/" a = true ->
  exists count kind,
    wire (snd (create_scheduling_link upstream str_exn payload w)) =
      (wire w ++
       [mkRequest POST
          (str_opt (base_url (calendly_client w)) ++ "/scheduling_links")
          (headers (calendly_client w))
          []
          (Some (VDict [("max_event_count", count);
                        ("owner", VStr a);
                        ("owner_type", kind)]))])%list
    /\ (lookup "owner_type" payload = None -> kind = VStr "EventType")
    /\ (lookup "max_event_count" payload = None -> count = VInt 1)
    /\ (forall v, lookup "owner_type" payload = Some v -> kind = v)
    /\ (forall v, lookup "max_event_count" payload = Some v -> count = v).
Proof.
  intros Ha Hp.
  assert (Hget : dict_get payload "appointment_type" VNone = VStr a).
  { unfold dict_get. rewrite Ha. reflexivity. }
  assert (Hv : booking_rejects (dict_get payload "appointment_type" VNone)
               = inr false).
  { apply booking_accepts_iff. exists a. split; assumption. }
  exists (dict_get payload "max_event_count" (VInt 1)),
         (dict_get payload "owner_type" (VStr "EventType")).
  rewrite (create_scheduling_link_run upstream str_exn payload w Hv).
  rewrite Hget. unfold dict_get.
  repeat split; try (intros v H; rewrite H; reflexivity);
    intros H; rewrite H; reflexivity.
Qed.

Lemma booking_payload_defaults_witness :
  wire (snd (create_scheduling_link Sample.unreachable Sample.render
               [("appointment_type", VStr Sample.event_type)]
               Sample.fresh)) =
    [mkRequest POST "https://api.calendly.com/scheduling_links"
       [("Authorization", "Bearer s3cr3t");
        ("Content-Type", "application/json")]
       []
       (Some (VDict [("max_event_count", VInt 1);
                     ("owner", VStr Sample.event_type);
                     ("owner_type", VStr "EventType")]))].
Proof.
  destruct (booking_payload_defaults Sample.unreachable Sample.render
              [("appointment_type", VStr Sample.event_type)]
              Sample.event_type Sample.fresh eq_refl eq_refl)
    as [count [kind [Hw [Hk [Hc _]]]]].
  rewrite Hw, (Hk eq_refl), (Hc eq_refl). reflexivity.
Defined.

(** A 201 response whose body does not decode raises inside the [try]
    block and so ends, like a transport failure, in the 500 error. *)
Remark booking_created_without_json
    (upstream : provider) (str_exn : exn -> string)
    (payload : list (string * value)) (w : world) (r : response) :
  booking_rejects (dict_get payload "appointment_type" VNone) = inr false ->
  upstream (wire w)
    (booking_request (calendly_client w)
       (calendly_payload payload
          (dict_get payload "appointment_type" VNone))) = Responds r ->
  status_code r = 201 ->
  json r = None ->
  reply_status (fst (serve upstream str_exn (Book payload) w)) = 500.
Proof.
  intros Hv H Hs Hj. unfold serve, handler.
  rewrite (create_scheduling_link_run upstream str_exn payload w Hv).
  rewrite H. cbn. rewrite Hs, Hj. reflexivity.
Qed.

(** C10.  The inbound check of the booking endpoint asks for the prefix
    ["https://api.calendly.com/"] only, which every string with the prefix
    the availability endpoint requires also has.  Every string with the
    shorter prefix is forwarded upstream as [owner]; among them
    ["https://api.calendly.com/users/x"], which the availability endpoint
    rejects with a 422 validation error. *)
Theorem booking_check_is_weaker
    (upstream : provider) (str_exn : exn -> string) :
  (forall a,
      String.prefix "https://api.calendly.com/event_types/" a = true ->
      String.prefix "https://api.calendly.com/" a = true)
  /\ (forall payload a w,
        lookup "appointment_type" payload = Some (VStr a) ->
        String.prefix "https://api.calendly.com/" a = true ->
        booking_rejects (dict_get payload "appointment_type" VNone) =
          inr false
        /\ wire (snd (serve upstream str_exn (Book payload) w)) =
             (wire w ++
              [booking_request (calendly_client w)
                 (VDict [("max_event_count",
                          dict_get payload "max_event_count" (VInt 1));
                         ("owner", VStr a);
                         ("owner_type",
                          dict_get payload "owner_type"
                            (VStr "EventType"))])])%list)
  /\ (forall start_time end_time w,
        String.prefix "https://api.calendly.com/"
          "https://api.calendly.com/users/x" = true
        /\ String.prefix "https://api.calendly.com/event_types/"
             "https://api.calendly.com/users/x" = false
        /\ wire (snd (serve upstream str_exn
                        (Book [("appointment_type",
                                VStr "https://api.calendly.com/users/x")])
                        w)) =
             (wire w ++
              [booking_request (calendly_client w)
                 (VDict [("max_event_count", VInt 1);
                         ("owner", VStr "https://api.calendly.com/users/x");
                         ("owner_type", VStr "EventType")])])%list
        /\ reply_status
             (fst (serve upstream str_exn
                     (Availability "https://api.calendly.com/users/x"
                        start_time end_time) w)) = 422
        /\ snd (serve upstream str_exn
                  (Availability "https://api.calendly.com/users/x"
                     start_time end_time) w) = w).
Proof.
  assert (Hfwd : forall payload a w,
    lookup "appointment_type" payload = Some (VStr a) ->
    String.prefix "https://api.calendly.com/" a = true ->
    booking_rejects (dict_get payload "appointment_type" VNone) = inr false
    /\ wire (snd (serve upstream str_exn (Book payload) w)) =
         (wire w ++
          [booking_request (calendly_client w)
             (VDict [("max_event_count",
                      dict_get payload "max_event_count" (VInt 1));
                     ("owner", VStr a);
                     ("owner_type",
                      dict_get payload "owner_type" (VStr "EventType"))])])%list).
  { intros payload a w Ha Hp.
    assert (Hget : dict_get payload "appointment_type" VNone = VStr a).
    { unfold dict_get. rewrite Ha. reflexivity. }
    assert (Hv : booking_rejects (dict_get payload "appointment_type" VNone)
                 = inr false).
    { apply booking_accepts_iff. exists a. split; assumption. }
    split; [exact Hv|].
    unfold serve, handler.
    rewrite (create_scheduling_link_run upstream str_exn payload w Hv).
    rewrite Hget. reflexivity. }
  split; [|split].
  - intros a H.
    apply (prefix_app "https://api.calendly.com/" "event_types/" a).
    exact H.
  - exact Hfwd.
  - intros start_time end_time w.
    split; [reflexivity|]. split; [reflexivity|]. split; [|split].
    + apply (Hfwd [("appointment_type",
                    VStr "https://api.calendly.com/users/x")]
               "https://api.calendly.com/users/x" w); reflexivity.
    + reflexivity.
    + reflexivity.
Qed.

Lemma booking_check_is_weaker_witness :
  String.prefix "https://api.calendly.com/" Sample.event_type = true
  /\ wire (snd (serve Sample.unreachable Sample.render
                  (Book [("appointment_type", VStr Sample.user_resource);
                         ("max_event_count", VInt 3)])
                  Sample.fresh)) =
       [booking_request Sample.fresh_client
          (VDict [("max_event_count", VInt 3);
                  ("owner", VStr Sample.user_resource);
                  ("owner_type", VStr "EventType")])].
Proof.
  split.
  - apply (proj1 (booking_check_is_weaker Sample.unreachable Sample.render)
             Sample.event_type).
    reflexivity.
  - apply (proj1 (proj2 (booking_check_is_weaker
                           Sample.unreachable Sample.render))
             [("appointment_type", VStr Sample.user_resource);
              ("max_event_count", VInt 3)]
             Sample.user_resource Sample.fresh);
      reflexivity.
Defined.

(* ================================================================== *)
(** ** Start-up and the credentials                                    *)
(* ================================================================== *)

Section Credentials.

Variable upstream : provider.
Variable str_exn : exn -> string.

(** No handler touches the base URL, the token or the headers. *)
Lemma handler_credentials (c : call) (w : world) :
  credentials (calendly_client (snd (handler upstream str_exn c w))) =
    credentials (calendly_client w).
Proof.
  destruct c as [| | |a s e|payload]; cbn [handler].
  - reflexivity.
  - unfold test_calendly_connection, bind.
    pose proof (test_connection_credentials upstream w) as H.
    destruct (test_connection upstream w) as [res w1]. cbn [snd] in H.
    rewrite <- H. unfold_monad. repeat (split_match; cbn); reflexivity.
  - unfold get_calendly_events, bind. rewrite get_event_types_run.
    cbn. unfold identity_ensured.
    destruct (truthy (user_uri (calendly_client w)));
      [reflexivity | apply test_connection_credentials].
  - unfold get_calendly_availability.
    destruct (String.prefix event_type_prefix a); cbn [negb];
      [|reflexivity].
    unfold bind. rewrite get_availability_run. reflexivity.
  - destruct (booking_rejects (dict_get payload "appointment_type" VNone))
      as [err|[|]] eqn:Hv.
    + unfold create_scheduling_link, bind, lift. rewrite Hv. reflexivity.
    + rewrite create_scheduling_link_rejected by exact Hv. reflexivity.
    + rewrite create_scheduling_link_run by exact Hv. reflexivity.
Qed.

Lemma serve_all_credentials (calls : list call) (w : world) :
  credentials (calendly_client (serve_all upstream str_exn calls w)) =
    credentials (calendly_client w).
Proof.
  revert w; induction calls as [|c calls IH]; intros w; cbn [serve_all].
  - reflexivity.
  - rewrite IH. unfold serve.
    pose proof (handler_credentials c w) as H.
    destruct (handler upstream str_exn c w) as [res w1]. exact H.
Qed.

End Credentials.

(** An empty token counts as a missing one. *)
Remark init_rejects_empty_token (getenv : string -> option string) :
  getenv "CALENDLY_API_TOKEN" = Some EmptyString ->
  exists msg, __init__ getenv = inl (ValueError msg).
Proof. intros H. unfold __init__. rewrite H. eexists. reflexivity. Qed.

(** C4, as amended.  When the token variable is missing from the
    environment or set to the empty string, constructing the client raises
    and the process does not start.  When it holds a non-empty token,
    construction succeeds, the base URL and the headers built from the
    token are set there, and they are the same after the start-up hook and
    after any sequence of inbound calls. *)
Theorem credentials_set_once
    (upstream : provider) (str_exn : exn -> string)
    (getenv : string -> option string) :
  (getenv "CALENDLY_API_TOKEN" = None
   \/ getenv "CALENDLY_API_TOKEN" = Some EmptyString ->
     exists msg,
       __init__ getenv = inl (ValueError msg)
       /\ boot upstream getenv = inl (ValueError msg))
  /\ (forall tok,
        getenv "CALENDLY_API_TOKEN" = Some tok ->
        tok <> EmptyString ->
        __init__ getenv =
          inr (mkClient (getenv "BASE_URL") tok
                 [("Authorization", "Bearer " ++ tok);
                  ("Content-Type", "application/json")]
                 VNone VNone)
        /\ exists w0,
             boot upstream getenv = inr w0
             /\ forall calls,
                  credentials
                    (calendly_client
                       (serve_all upstream str_exn calls w0)) =
                    (getenv "BASE_URL", tok,
                     [("Authorization", "Bearer " ++ tok);
                      ("Content-Type", "application/json")])).
Proof.
  split.
  - intros [H|H]; unfold boot, __init__; rewrite H; eexists;
      split; reflexivity.
  - intros tok H Hne.
    assert (Hinit : __init__ getenv =
              inr (mkClient (getenv "BASE_URL") tok
                     [("Authorization", "Bearer " ++ tok);
                      ("Content-Type", "application/json")]
                     VNone VNone)).
    { unfold __init__. rewrite H.
      destruct (String.eqb_spec tok EmptyString); [contradiction|].
      reflexivity. }
    split; [exact Hinit|].
    unfold boot. rewrite Hinit. eexists. split; [reflexivity|].
    intros calls. rewrite serve_all_credentials.
    unfold startup_event, bind.
    match goal with
    | |- context [test_connection upstream ?w] =>
        pose proof (test_connection_credentials upstream w) as Hc;
        destruct (test_connection_returns upstream w) as [v Hv];
        destruct (test_connection upstream w) as [res w1]
    end.
    cbn [fst] in Hv. subst res. cbn [snd ret] in *. exact Hc.
Qed.

Lemma credentials_set_once_witness :
  (exists msg,
     __init__ Sample.env_without_token = inl (ValueError msg)
     /\ boot Sample.unreachable Sample.env_without_token =
          inl (ValueError msg))
  /\ (exists msg,
        __init__ Sample.env_empty_token = inl (ValueError msg)
        /\ boot Sample.unreachable Sample.env_empty_token =
             inl (ValueError msg))
  /\ __init__ Sample.env = inr Sample.fresh_client
  /\ exists w0,
       boot Sample.unreachable Sample.env = inr w0
       /\ forall calls,
            credentials
              (calendly_client
                 (serve_all Sample.unreachable Sample.render calls w0)) =
              (Some "https://api.calendly.com", "s3cr3t",
               [("Authorization", "Bearer s3cr3t");
                ("Content-Type", "application/json")]).
Proof.
  split; [|split].
  - apply (proj1 (credentials_set_once Sample.unreachable Sample.render
                    Sample.env_without_token)).
    left. reflexivity.
  - apply (proj1 (credentials_set_once Sample.unreachable Sample.render
                    Sample.env_empty_token)).
    right. reflexivity.
  - apply (proj2 (credentials_set_once Sample.unreachable Sample.render
                    Sample.env) "s3cr3t").
    + reflexivity.
    + discriminate.
Defined.

(** C4, as stated, fails: with the token variable present in the
    environment but set to the empty string, constructing the client
    raises and the process does not start. *)
Lemma empty_token_stops_startup :
  Sample.env_empty_token "CALENDLY_API_TOKEN" = Some EmptyString
  /\ __init__ Sample.env_empty_token =
       inl (ValueError "Missing Calendly API token. Please set CALENDLY_API_TOKEN in your environment.")
  /\ boot Sample.unreachable Sample.env_empty_token =
       inl (ValueError "Missing Calendly API token. Please set CALENDLY_API_TOKEN in your environment.").
Proof. repeat split. Qed.

(* ================================================================== *)
(** ** Further properties of the connection test                       *)
(* ================================================================== *)

Lemma split_on_join (sep : ascii) (s : string) :
  join_on sep (split_on sep s) = s.
Proof.
  induction s as [|c s IH]; [reflexivity|]. cbn [split_on].
  destruct (Ascii.eqb_spec c sep) as [->|Hc].
  - pose proof (split_on_nonempty sep s) as Hne.
    destruct (split_on sep s) as [|x rest]; [contradiction|].
    change (join_on sep (EmptyString :: x :: rest))
      with (String sep (join_on sep (x :: rest))).
    rewrite IH. reflexivity.
  - pose proof (split_on_nonempty sep s) as Hne.
    destruct (split_on sep s) as [|x rest]; [contradiction|].
    destruct rest as [|y rest].
    + cbn in *. rewrite IH. reflexivity.
    + change (join_on sep (String c x :: y :: rest))
        with (String c (x ++ String sep (join_on sep (y :: rest)))).
      change (join_on sep (x :: y :: rest))
        with (x ++ String sep (join_on sep (y :: rest))) in IH.
      rewrite IH. reflexivity.
Qed.

Lemma split_on_free (sep : ascii) (s : string) :
  Forall (free_of sep) (split_on sep s).
Proof.
  induction s as [|c s IH]; cbn [split_on].
  - constructor; [intros []|constructor].
  - destruct (Ascii.eqb_spec c sep) as [->|Hc].
    + constructor; [intros []|exact IH].
    + destruct (split_on sep s) as [|x rest].
      * constructor; [|constructor].
        intros [H|[]]. congruence.
      * inversion IH as [|? ? Hx Hrest]; subst.
        constructor; [|exact Hrest].
        intros [H|H]; [congruence|exact (Hx H)].
Qed.

Lemma last_item_in (l : list string) (x : string) :
  last_item l = inr x -> In x l.
Proof.
  induction l as [|a l IH]; [discriminate|].
  destruct l as [|b l].
  - cbn. intros H. injection H as ->. left. reflexivity.
  - intros H. right. apply IH. exact H.
Qed.

Lemma string_app_assoc (a b c : string) : (a ++ b) ++ c = a ++ (b ++ c).
Proof.
  induction a as [|ch a IH]; [reflexivity|]. cbn. rewrite IH. reflexivity.
Qed.

Lemma last_item_join (sep : ascii) (l : list string) (x : string) :
  last_item l = inr x ->
  join_on sep l = x \/ exists p, join_on sep l = p ++ String sep x.
Proof.
  induction l as [|a l IH]; [discriminate|].
  destruct l as [|b l].
  - cbn. intros H. injection H as ->. left. reflexivity.
  - intros H.
    change (join_on sep (a :: b :: l))
      with (a ++ String sep (join_on sep (b :: l))).
    right. destruct (IH H) as [Heq|[p Heq]]; rewrite Heq.
    + exists a. reflexivity.
    + exists (a ++ String sep p).
      rewrite string_app_assoc. reflexivity.
Qed.

(** X1.  The connection test never raises, whatever the upstream does: it
    returns [None], or the decoded payload of a 200 response, and it puts
    exactly one request on the wire, a GET of [/users/me] without query
    parameters. *)
Theorem connection_test_never_raises (upstream : provider) (w : world) :
  (fst (test_connection upstream w) = inr VNone
   \/ exists r data,
        upstream (wire w) (whoami_request (calendly_client w)) = Responds r
        /\ status_code r = 200
        /\ json r = Some data
        /\ fst (test_connection upstream w) = inr data)
  /\ wire (snd (test_connection upstream w)) =
       (wire w ++
        [mkRequest GET (str_opt (base_url (calendly_client w)) ++ "/users/me")
           (headers (calendly_client w)) [] None])%list.
Proof.
  split; [|apply test_connection_wire].
  unfold test_connection. unfold_monad. rewrite send_run.
  fold (whoami_request (calendly_client w)).
  destruct (upstream (wire w) (whoami_request (calendly_client w)))
    as [r|detail]; cbn; [|left; reflexivity].
  destruct (status_code r =? 200) eqn:Hs; cbn; [|left; reflexivity].
  apply Z.eqb_eq in Hs.
  destruct (json r) as [data|] eqn:Hj; cbn; [|left; reflexivity].
  repeat (split_match; cbn); try (left; reflexivity).
  right. exists r, data. repeat split; try assumption; reflexivity.
Qed.

(** X2.  After a 200 response whose payload holds a string [uri], the
    cached [user_uuid] is the part of that URI after its last slash: it
    contains no slash, and the URI is either that segment alone or some
    text, a slash, and the segment.  This does not depend on the rest of
    the payload. *)
Theorem cached_uuid_is_trailing_segment
    (upstream : provider) (w : world) (r : response)
    (data resource : value) (u : string) :
  upstream (wire w) (whoami_request (calendly_client w)) = Responds r ->
  status_code r = 200 ->
  json r = Some data ->
  subscript data "resource" = inr resource ->
  subscript resource "uri" = inr (VStr u) ->
  exists seg,
    user_uuid (calendly_client (snd (test_connection upstream w))) = VStr seg
    /\ free_of "/" seg
    /\ (u = seg \/ exists p, u = p ++ String "/" seg).
Proof.
  intros H Hs Hj Hres Huri.
  destruct (last_item_defined (split_on "/" u) (split_on_nonempty _ _))
    as [seg Hseg].
  exists seg. split; [|split].
  - unfold test_connection. unfold_monad.
    rewrite send_run. fold (whoami_request (calendly_client w)).
    rewrite H, Hs, Hj. cbn. rewrite Hres, Huri. cbn.
    rewrite Hseg. destruct (subscript resource "name"); reflexivity.
  - pose proof (split_on_free "/" u) as Hfree.
    rewrite Forall_forall in Hfree. apply Hfree.
    apply last_item_in. exact Hseg.
  - pose proof (last_item_join "/" _ _ Hseg) as Hjoin.
    rewrite split_on_join in Hjoin. exact Hjoin.
Qed.

Lemma cached_uuid_is_trailing_segment_witness :
  exists seg,
    user_uuid (calendly_client
                 (snd (test_connection
                         (Sample.always
                            (Responds (Sample.ok Sample.nameless_payload)))
                         Sample.fresh))) = VStr seg
    /\ free_of "/" seg
    /\ (Sample.account = seg \/ exists p, Sample.account = p ++ String "/" seg).
Proof.
  apply (cached_uuid_is_trailing_segment
           (Sample.always (Responds (Sample.ok Sample.nameless_payload)))
           Sample.fresh (Sample.ok Sample.nameless_payload)
           Sample.nameless_payload
           (VDict [("uri", VStr Sample.account)]) Sample.account);
    reflexivity.
Defined.

(** X3.  A 200 response that cannot be used ends in [None].  When no
    [uri] can be read from the payload (the body does not decode, or has
    no [resource], or the resource has no [uri]), the client object is
    untouched.  When the [uri] is there but is not a string, it is stored
    in [user_uri] all the same, while [user_uuid] keeps its old value. *)
Theorem connection_test_on_unusable_200
    (upstream : provider) (w : world) (r : response) :
  upstream (wire w) (whoami_request (calendly_client w)) = Responds r ->
  status_code r = 200 ->
  ((forall data resource v,
       json r = Some data ->
       subscript data "resource" = inr resource ->
       subscript resource "uri" = inr v -> False) ->
   test_connection upstream w =
     (inr VNone, sent (whoami_request (calendly_client w)) w))
  /\ (forall data resource v,
        json r = Some data ->
        subscript data "resource" = inr resource ->
        subscript resource "uri" = inr v ->
        (forall s, v <> VStr s) ->
        test_connection upstream w =
          (inr VNone,
           mkWorld (with_user_uri v (calendly_client w))
             (wire w ++ [whoami_request (calendly_client w)]))).
Proof.
  intros H Hs. split.
  - intros Hno. unfold test_connection. unfold_monad.
    rewrite send_run. fold (whoami_request (calendly_client w)).
    rewrite H, Hs. cbn.
    destruct (json r) as [data|]; cbn; [|reflexivity].
    destruct (subscript data "resource") as [e|resource] eqn:Hres; cbn;
      [reflexivity|].
    destruct (subscript resource "uri") as [e|v] eqn:Huri; cbn;
      [reflexivity|].
    exfalso. exact (Hno data resource v eq_refl Hres Huri).
  - intros data resource v Hj Hres Huri Hv.
    unfold test_connection. unfold_monad.
    rewrite send_run. fold (whoami_request (calendly_client w)).
    rewrite H, Hs, Hj. cbn. rewrite Hres, Huri. cbn.
    destruct v; try reflexivity. exfalso. exact (Hv s eq_refl).
Qed.

Lemma connection_test_on_unusable_200_witness :
  test_connection (Sample.always (Responds (Sample.ok (VDict []))))
    Sample.known =
    (inr VNone, sent (whoami_request Sample.known_client) Sample.known)
  /\ test_connection
       (Sample.always (Responds (Sample.ok Sample.numeric_uri_payload)))
       Sample.known =
     (inr VNone,
      mkWorld (with_user_uri (VInt 7) Sample.known_client)
        [whoami_request Sample.known_client]).
Proof.
  split.
  - apply (proj1 (connection_test_on_unusable_200
                    (Sample.always (Responds (Sample.ok (VDict []))))
                    Sample.known (Sample.ok (VDict []))
                    eq_refl eq_refl)).
    intros data resource v Hj Hres _. cbn in Hj. injection Hj as <-.
    discriminate Hres.
  - apply (proj2 (connection_test_on_unusable_200
                    (Sample.always
                       (Responds (Sample.ok Sample.numeric_uri_payload)))
                    Sample.known (Sample.ok Sample.numeric_uri_payload)
                    eq_refl eq_refl)
             Sample.numeric_uri_payload
             (VDict [("uri", VInt 7); ("name", VStr "Front Desk")])
             (VInt 7));
      try reflexivity.
    intros s; discriminate.
Defined.



(* ================================================================== *)
(** ** Further properties of listing and availability                  *)
(* ================================================================== *)

(** X5.  When no identity is cached and the identity fetch fails, listing
    event types still goes ahead: the listing request follows the failed
    [/users/me] call, filtered by the unchanged [user_uri], and the client
    object is what it was. *)
Theorem listing_after_failed_identity_fetch
    (upstream : provider) (str_exn : exn -> string) (w : world) :
  truthy (user_uri (calendly_client w)) = false ->
  connection_fails upstream w ->
  snd (get_event_types upstream str_exn w) =
    mkWorld (calendly_client w)
      (wire w ++
       [whoami_request (calendly_client w);
        listing_request (calendly_client w)
          (user_uri (calendly_client w))]).
Proof.
  intros Hc Hf. rewrite get_event_types_run. unfold identity_ensured.
  rewrite Hc, (test_connection_failed _ _ Hf).
  unfold sent. cbn [snd calendly_client wire].
  rewrite <- app_assoc. reflexivity.
Qed.

Lemma listing_after_failed_identity_fetch_witness :
  snd (get_event_types Sample.unreachable Sample.render Sample.fresh) =
    mkWorld Sample.fresh_client
      [whoami_request Sample.fresh_client;
       listing_request Sample.fresh_client VNone].
Proof.
  apply (listing_after_failed_identity_fetch
           Sample.unreachable Sample.render Sample.fresh).
  - reflexivity.
  - left. eexists. reflexivity.
Defined.

(** What [handed_back] gives for a 200 response, by the shape of its
    body. *)
Lemma handed_back_on_200 (str_exn : exn -> string) (r : response) :
  status_code r = 200 ->
  (json r = None ->
   handed_back str_exn (Responds r) =
     VDict [("error", VStr (str_exn JSONDecodeError))])
  /\ (forall data,
        json r = Some data ->
        (forall entries, data <> VDict entries) ->
        handed_back str_exn (Responds r) =
          VDict [("error", VStr (str_exn (AttributeError "get")))])
  /\ (forall entries,
        json r = Some (VDict entries) ->
        lookup "collection" entries = None ->
        handed_back str_exn (Responds r) = VDict entries)
  /\ (forall entries c n,
        json r = Some (VDict entries) ->
        lookup "collection" entries = Some c ->
        len c = inr n ->
        handed_back str_exn (Responds r) = VDict entries)
  /\ (forall entries c err,
        json r = Some (VDict entries) ->
        lookup "collection" entries = Some c ->
        len c = inl err ->
        handed_back str_exn (Responds r) =
          VDict [("error", VStr (str_exn err))]).
Proof.
  intros Hs. unfold handed_back, counted_body, response_json.
  rewrite Hs. cbn. repeat split.
  - intros ->. reflexivity.
  - intros data -> Hd. destruct data; try reflexivity.
    exfalso. exact (Hd entries eq_refl).
  - intros entries -> Hl. cbn. unfold dict_get. rewrite Hl. reflexivity.
  - intros entries c n -> Hl Hn. cbn. unfold dict_get. rewrite Hl, Hn.
    reflexivity.
  - intros entries c err -> Hl Hn. cbn. unfold dict_get. rewrite Hl, Hn.
    reflexivity.
Qed.

(** X6.  A 200 response to the availability call is not always passed on.
    The body is returned as it came when it is an object without a
    [collection], or with one that [len] accepts.  When the body does not
    decode, is not an object, or holds a [collection] that has no length,
    the method returns a payload whose only entry is [error]. *)
Theorem availability_on_200
    (upstream : provider) (str_exn : exn -> string)
    (a s e : string) (w : world) (r : response) :
  upstream (wire w) (availability_request (calendly_client w) a s e) =
    Responds r ->
  status_code r = 200 ->
  (json r = None ->
   fst (get_availability upstream str_exn a s e w) =
     inr (VDict [("error", VStr (str_exn JSONDecodeError))]))
  /\ (forall data,
        json r = Some data ->
        (forall entries, data <> VDict entries) ->
        fst (get_availability upstream str_exn a s e w) =
          inr (VDict [("error", VStr (str_exn (AttributeError "get")))]))
  /\ (forall entries,
        json r = Some (VDict entries) ->
        lookup "collection" entries = None ->
        fst (get_availability upstream str_exn a s e w) =
          inr (VDict entries))
  /\ (forall entries c n,
        json r = Some (VDict entries) ->
        lookup "collection" entries = Some c ->
        len c = inr n ->
        fst (get_availability upstream str_exn a s e w) =
          inr (VDict entries))
  /\ (forall entries c err,
        json r = Some (VDict entries) ->
        lookup "collection" entries = Some c ->
        len c = inl err ->
        fst (get_availability upstream str_exn a s e w) =
          inr (VDict [("error", VStr (str_exn err))])).
Proof.
  intros H Hs. rewrite get_availability_run, H. cbn [fst].
  destruct (handed_back_on_200 str_exn r Hs) as [H1 [H2 [H3 [H4 H5]]]].
  repeat split.
  - intros Hj. rewrite (H1 Hj). reflexivity.
  - intros data Hj Hd. rewrite (H2 data Hj Hd). reflexivity.
  - intros entries Hj Hl. rewrite (H3 entries Hj Hl). reflexivity.
  - intros entries c n Hj Hl Hn. rewrite (H4 entries c n Hj Hl Hn).
    reflexivity.
  - intros entries c err Hj Hl Hn. rewrite (H5 entries c err Hj Hl Hn).
    reflexivity.
Qed.

Lemma availability_on_200_witness :
  fst (get_availability (Sample.always (Responds (Sample.ok Sample.bare)))
         Sample.render Sample.event_type "2025-11-14T20:00:00.000000Z"
         "2025-11-20T20:00:00.000000Z" Sample.fresh) = inr Sample.bare
  /\ fst (get_availability
            (Sample.always (Responds (Sample.ok Sample.uncounted)))
            Sample.render Sample.event_type "2025-11-14T20:00:00.000000Z"
            "2025-11-20T20:00:00.000000Z" Sample.fresh) =
       inr (VDict [("error", VStr "unsupported operand")])
  /\ fst (get_availability
            (Sample.always (Responds (Sample.ok (VList []))))
            Sample.render Sample.event_type "2025-11-14T20:00:00.000000Z"
            "2025-11-20T20:00:00.000000Z" Sample.fresh) =
       inr (VDict [("error", VStr "object has no attribute 'get'")]).
Proof.
  split; [|split].
  - apply (proj1 (proj2 (proj2 (availability_on_200
             (Sample.always (Responds (Sample.ok Sample.bare)))
             Sample.render Sample.event_type "2025-11-14T20:00:00.000000Z"
             "2025-11-20T20:00:00.000000Z" Sample.fresh
             (Sample.ok Sample.bare) eq_refl eq_refl)))
           [("next_page", VNone)]); reflexivity.
  - apply (proj2 (proj2 (proj2 (proj2 (availability_on_200
             (Sample.always (Responds (Sample.ok Sample.uncounted)))
             Sample.render Sample.event_type "2025-11-14T20:00:00.000000Z"
             "2025-11-20T20:00:00.000000Z" Sample.fresh
             (Sample.ok Sample.uncounted) eq_refl eq_refl))))
           [("collection", VInt 3)] (VInt 3) TypeError); reflexivity.
  - apply (proj1 (proj2 (availability_on_200
             (Sample.always (Responds (Sample.ok (VList []))))
             Sample.render Sample.event_type "2025-11-14T20:00:00.000000Z"
             "2025-11-20T20:00:00.000000Z" Sample.fresh
             (Sample.ok (VList [])) eq_refl eq_refl))
           (VList [])); [reflexivity|discriminate].
Defined.

(** X7.  The same holds for the listing call, issued in the state the
    identity check leaves: a 200 body is returned as it came only when it
    is an object whose [collection], if any, has a length; otherwise the
    method returns a payload whose only entry is [error]. *)
Theorem listing_on_200
    (upstream : provider) (str_exn : exn -> string)
    (w : world) (r : response) :
  upstream (wire (identity_ensured upstream w))
    (listing_request (calendly_client (identity_ensured upstream w))
       (user_uri (calendly_client (identity_ensured upstream w)))) =
    Responds r ->
  status_code r = 200 ->
  (json r = None ->
   fst (get_event_types upstream str_exn w) =
     inr (VDict [("error", VStr (str_exn JSONDecodeError))]))
  /\ (forall data,
        json r = Some data ->
        (forall entries, data <> VDict entries) ->
        fst (get_event_types upstream str_exn w) =
          inr (VDict [("error", VStr (str_exn (AttributeError "get")))]))
  /\ (forall entries,
        json r = Some (VDict entries) ->
        lookup "collection" entries = None ->
        fst (get_event_types upstream str_exn w) = inr (VDict entries))
  /\ (forall entries c n,
        json r = Some (VDict entries) ->
        lookup "collection" entries = Some c ->
        len c = inr n ->
        fst (get_event_types upstream str_exn w) = inr (VDict entries))
  /\ (forall entries c err,
        json r = Some (VDict entries) ->
        lookup "collection" entries = Some c ->
        len c = inl err ->
        fst (get_event_types upstream str_exn w) =
          inr (VDict [("error", VStr (str_exn err))])).
Proof.
  intros H Hs. rewrite get_event_types_run. cbv zeta. rewrite H. cbn [fst].
  destruct (handed_back_on_200 str_exn r Hs) as [H1 [H2 [H3 [H4 H5]]]].
  repeat split.
  - intros Hj. rewrite (H1 Hj). reflexivity.
  - intros data Hj Hd. rewrite (H2 data Hj Hd). reflexivity.
  - intros entries Hj Hl. rewrite (H3 entries Hj Hl). reflexivity.
  - intros entries c n Hj Hl Hn. rewrite (H4 entries c n Hj Hl Hn).
    reflexivity.
  - intros entries c err Hj Hl Hn. rewrite (H5 entries c err Hj Hl Hn).
    reflexivity.
Qed.

Lemma listing_on_200_witness :
  fst (get_event_types (Sample.always (Responds (Sample.ok Sample.slots)))
         Sample.render Sample.known) = inr Sample.slots
  /\ fst (get_event_types
            (Sample.always (Responds (mkResponse 200 "<html>" None)))
            Sample.render Sample.known) =
       inr (VDict [("error",
                    VStr "Expecting value: line 1 column 1 (char 0)")]).
Proof.
  split.
  - apply (proj1 (proj2 (proj2 (proj2 (listing_on_200
             (Sample.always (Responds (Sample.ok Sample.slots)))
             Sample.render Sample.known (Sample.ok Sample.slots)
             eq_refl eq_refl))))
           [("collection",
             VList [VDict [("status", VStr "available");
                           ("start_time", VStr "2025-11-15T09:00:00Z")];
                    VDict [("status", VStr "available");
                           ("start_time", VStr "2025-11-15T10:00:00Z")]])]
           (VList [VDict [("status", VStr "available");
                          ("start_time", VStr "2025-11-15T09:00:00Z")];
                   VDict [("status", VStr "available");
                          ("start_time", VStr "2025-11-15T10:00:00Z")]])
           2); reflexivity.
  - apply (proj1 (listing_on_200
             (Sample.always (Responds (mkResponse 200 "<html>" None)))
             Sample.render Sample.known (mkResponse 200 "<html>" None)
             eq_refl eq_refl)); reflexivity.
Defined.

(* ================================================================== *)
(** ** Further properties of the inbound surface                       *)
(* ================================================================== *)

Section Surface.

Variable upstream : provider.
Variable str_exn : exn -> string.

Lemma serve_events (w : world) :
  serve upstream str_exn Events w =
    (mkReply 200
       (handed_back str_exn
          (upstream (wire (identity_ensured upstream w))
             (listing_request (calendly_client (identity_ensured upstream w))
                (user_uri (calendly_client (identity_ensured upstream w)))))),
     sent (listing_request (calendly_client (identity_ensured upstream w))
             (user_uri (calendly_client (identity_ensured upstream w))))
       (identity_ensured upstream w)).
Proof.
  unfold serve, handler, get_calendly_events, bind.
  rewrite get_event_types_run. reflexivity.
Qed.

Lemma serve_availability (a s e : string) (w : world) :
  serve upstream str_exn (Availability a s e) w =
    if String.prefix event_type_prefix a then
      (mkReply 200
         (handed_back str_exn
            (upstream (wire w)
               (availability_request (calendly_client w) a s e))),
       sent (availability_request (calendly_client w) a s e) w)
    else (respond (inl availability_validation_error), w).
Proof.
  unfold serve, handler, get_calendly_availability.
  destruct (String.prefix event_type_prefix a); cbn [negb];
    [|reflexivity].
  unfold bind. rewrite get_availability_run. reflexivity.
Qed.

Lemma serve_book (payload : list (string * value)) (w : world) :
  serve upstream str_exn (Book payload) w =
    match booking_rejects (dict_get payload "appointment_type" VNone) with
    | inl e => (respond (inl e), w)
    | inr true => (booking_422, w)
    | inr false =>
        (respond
           (booking_result str_exn
              (upstream (wire w)
                 (booking_request (calendly_client w)
                    (calendly_payload payload
                       (dict_get payload "appointment_type" VNone))))),
         sent (booking_request (calendly_client w)
                 (calendly_payload payload
                    (dict_get payload "appointment_type" VNone))) w)
    end.
Proof.
  unfold serve, handler.
  destruct (booking_rejects (dict_get payload "appointment_type" VNone))
    as [err|[|]] eqn:Hv.
  - unfold create_scheduling_link, bind, lift. rewrite Hv. reflexivity.
  - rewrite create_scheduling_link_rejected by exact Hv. reflexivity.
  - rewrite create_scheduling_link_run by exact Hv. reflexivity.
Qed.

Lemma serve_test_connection_world (w : world) :
  snd (serve upstream str_exn TestConnection w) =
    snd (test_connection upstream w).
Proof.
  unfold serve, handler, test_calendly_connection, bind.
  destruct (test_connection upstream w) as [[e|v] w1]; [reflexivity|].
  unfold_monad. cbn. repeat (split_match; cbn); reflexivity.
Qed.


End Surface.


(** X9.  What the inbound check of the booking endpoint does with the
    [appointment_type] entry of the body.  A missing entry, or one that
    Python counts as false (null, false, 0, an empty string, list or
    object), and a string without the prefix are answered 422 with a
    validation error on the body field.  A value that counts as true and
    is not a string (a number, true, a non-empty list or object) raises
    on [startswith] and is answered 500.  In none of these cases is
    anything sent upstream or changed. *)
Theorem booking_validation_cases
    (upstream : provider) (str_exn : exn -> string)
    (payload : list (string * value)) (w : world) :
  (lookup "appointment_type" payload = None ->
   serve upstream str_exn (Book payload) w = (booking_422, w))
  /\ (forall v,
        lookup "appointment_type" payload = Some v ->
        truthy v = false ->
        serve upstream str_exn (Book payload) w = (booking_422, w))
  /\ (forall a,
        lookup "appointment_type" payload = Some (VStr a) ->
        String.prefix "https://api.calendly.com/" a = false ->
        serve upstream str_exn (Book payload) w = (booking_422, w))
  /\ (forall v,
        lookup "appointment_type" payload = Some v ->
        truthy v = true ->
        (forall a, v <> VStr a) ->
        serve upstream str_exn (Book payload) w =
          (mkReply 500 (VStr "Internal Server Error"), w)).
Proof.
  repeat split.
  - intros Hl. rewrite serve_book. unfold dict_get. rewrite Hl. reflexivity.
  - intros v Hl Ht. rewrite serve_book. unfold dict_get. rewrite Hl.
    unfold booking_rejects. rewrite Ht. reflexivity.
  - intros a Hl Hp. rewrite serve_book. unfold dict_get. rewrite Hl.
    unfold booking_rejects, api_prefix.
    destruct (truthy (VStr a)); cbn; [|reflexivity].
    rewrite Hp. reflexivity.
  - intros v Hl Ht Hv. rewrite serve_book. unfold dict_get. rewrite Hl.
    unfold booking_rejects. rewrite Ht. cbn [negb].
    destruct v; try reflexivity. exfalso. exact (Hv s eq_refl).
Qed.

Lemma booking_validation_cases_witness :
  serve Sample.unreachable Sample.render (Book [("owner_type", VStr "EventType")])
    Sample.known = (booking_422, Sample.known)
  /\ serve Sample.unreachable Sample.render
       (Book [("appointment_type", VStr EmptyString)]) Sample.known =
     (booking_422, Sample.known)
  /\ serve Sample.unreachable Sample.render
       (Book [("appointment_type", VStr "http://api.calendly.com/x")])
       Sample.known = (booking_422, Sample.known)
  /\ serve Sample.unreachable Sample.render
       (Book [("appointment_type", VInt 5)]) Sample.known =
     (mkReply 500 (VStr "Internal Server Error"), Sample.known).
Proof.
  split; [|split; [|split]].
  - apply (proj1 (booking_validation_cases Sample.unreachable Sample.render
                    [("owner_type", VStr "EventType")] Sample.known)).
    reflexivity.
  - apply (proj1 (proj2 (booking_validation_cases
                           Sample.unreachable Sample.render
                           [("appointment_type", VStr EmptyString)]
                           Sample.known)) (VStr EmptyString));
      reflexivity.
  - apply (proj1 (proj2 (proj2 (booking_validation_cases
                                  Sample.unreachable Sample.render
                                  [("appointment_type",
                                    VStr "http://api.calendly.com/x")]
                                  Sample.known)))
             "http://api.calendly.com/x"); reflexivity.
  - apply (proj2 (proj2 (proj2 (booking_validation_cases
                                  Sample.unreachable Sample.render
                                  [("appointment_type", VInt 5)]
                                  Sample.known))) (VInt 5));
      try reflexivity.
    intros a; discriminate.
Defined.

Section Wire.

Variable upstream : provider.
Variable str_exn : exn -> string.

Lemma from_credentials_same (c c' : CalendlyClient) (rq : request) :
  credentials c = credentials c' ->
  from_credentials c rq -> from_credentials c' rq.
Proof.
  unfold credentials, from_credentials. intros H [Hh [path [Hin Hu]]].
  injection H as Hb _ Hhd. rewrite <- Hb, <- Hhd.
  split; [exact Hh|]. exists path. split; assumption.
Qed.

Lemma whoami_from_credentials (c : CalendlyClient) :
  from_credentials c (whoami_request c).
Proof.
  split; [reflexivity|]. exists "/users/me". split; [|reflexivity].
  cbn. auto.
Qed.

Lemma listing_from_credentials (c : CalendlyClient) (user : value) :
  from_credentials c (listing_request c user).
Proof.
  split; [reflexivity|]. exists "/event_types". split; [|reflexivity].
  cbn. auto.
Qed.

Lemma availability_from_credentials (c : CalendlyClient) (a s e : string) :
  from_credentials c (availability_request c a s e).
Proof.
  split; [reflexivity|]. exists "/event_type_available_times".
  split; [|reflexivity]. cbn. auto.
Qed.

Lemma booking_from_credentials (c : CalendlyClient) (body : value) :
  from_credentials c (booking_request c body).
Proof.
  split; [reflexivity|]. exists "/scheduling_links".
  split; [|reflexivity]. cbn. auto.
Qed.

(** One inbound call adds at most two requests to the wire, all built
    from the credentials, and leaves the earlier ones in place. *)
Lemma serve_wire (c : call) (w : world) :
  exists l,
    wire (snd (serve upstream str_exn c w)) = (wire w ++ l)%list
    /\ (length l <= 2)%nat
    /\ Forall (from_credentials (calendly_client w)) l.
Proof.
  destruct c as [| | |a s e|payload].
  - exists []. cbn. rewrite app_nil_r. repeat split; [lia|constructor].
  - exists [whoami_request (calendly_client w)].
    rewrite serve_test_connection_world, test_connection_wire.
    repeat split; [cbn; lia|].
    constructor; [apply whoami_from_credentials|constructor].
  - rewrite serve_events. unfold identity_ensured.
    destruct (truthy (user_uri (calendly_client w))).
    + eexists. split; [reflexivity|]. split; [cbn; lia|].
      constructor; [apply listing_from_credentials|constructor].
    + pose proof (test_connection_credentials upstream w) as Hc.
      exists [whoami_request (calendly_client w);
              listing_request
                (calendly_client (snd (test_connection upstream w)))
                (user_uri
                   (calendly_client (snd (test_connection upstream w))))].
      split; [|split; [cbn; lia|]].
      * unfold sent. cbn [snd wire]. rewrite test_connection_wire.
        rewrite <- app_assoc. reflexivity.
      * constructor; [apply whoami_from_credentials|].
        constructor; [|constructor].
        apply (from_credentials_same _ _ _ Hc).
        apply listing_from_credentials.
  - rewrite serve_availability.
    destruct (String.prefix event_type_prefix a).
    + eexists. split; [reflexivity|]. split; [cbn; lia|].
      constructor; [apply availability_from_credentials|constructor].
    + exists []. cbn. rewrite app_nil_r. repeat split; [lia|constructor].
  - rewrite serve_book.
    destruct (booking_rejects (dict_get payload "appointment_type" VNone))
      as [err|[|]].
    + exists []. cbn. rewrite app_nil_r. repeat split; [lia|constructor].
    + exists []. cbn. rewrite app_nil_r. repeat split; [lia|constructor].
    + eexists. split; [reflexivity|]. split; [cbn; lia|].
      constructor; [apply booking_from_credentials|constructor].
Qed.

(** Unless it is the connection test, an inbound call made while an
    identity is cached leaves the client object as it is. *)
Lemma serve_client_kept (c : call) (w : world) :
  c <> TestConnection ->
  truthy (user_uri (calendly_client w)) = true ->
  calendly_client (snd (serve upstream str_exn c w)) = calendly_client w.
Proof.
  intros Hc Ht. destruct c as [| | |a s e|payload].
  - reflexivity.
  - congruence.
  - rewrite serve_events. unfold identity_ensured. rewrite Ht. reflexivity.
  - rewrite serve_availability.
    destruct (String.prefix event_type_prefix a); reflexivity.
  - rewrite serve_book.
    destruct (booking_rejects (dict_get payload "appointment_type" VNone))
      as [err|[|]]; reflexivity.
Qed.

End Wire.

(** X10.  Whatever sequence of inbound calls is served, the requests
    already on the wire stay as they are, at most two are added per call,
    and every added request carries the client's headers and goes to one
    of the four upstream paths under the client's base URL. *)
Theorem outbound_requests_use_credentials
    (upstream : provider) (str_exn : exn -> string)
    (calls : list call) (w : world) :
  exists l,
    wire (serve_all upstream str_exn calls w) = (wire w ++ l)%list
    /\ (length l <= 2 * length calls)%nat
    /\ Forall (from_credentials (calendly_client w)) l.
Proof.
  revert w; induction calls as [|c calls IH]; intros w; cbn [serve_all].
  - exists []. rewrite app_nil_r. repeat split; [cbn; lia|constructor].
  - destruct (serve_wire upstream str_exn c w) as [l1 [Hw1 [Hn1 Hf1]]].
    destruct (IH (snd (serve upstream str_exn c w))) as [l2 [Hw2 [Hn2 Hf2]]].
    exists (l1 ++ l2)%list. split; [|split].
    + rewrite Hw2, Hw1, app_assoc. reflexivity.
    + rewrite length_app. cbn [length]. lia.
    + apply Forall_app. split; [exact Hf1|].
      assert (Hc : credentials
                     (calendly_client (snd (serve upstream str_exn c w))) =
                   credentials (calendly_client w)).
      { unfold serve.
        pose proof (handler_credentials upstream str_exn c w) as H.
        destruct (handler upstream str_exn c w). exact H. }
      eapply Forall_impl; [|exact Hf2].
      intros rq. apply from_credentials_same. exact Hc.
Qed.

(** X11.  Once an identity is cached, no sequence of calls to the health
    check, the events, the availability or the booking endpoint changes
    the client object: the identity neither expires nor is refreshed, and
    only the test-connection endpoint can replace it. *)
Theorem cached_identity_persists
    (upstream : provider) (str_exn : exn -> string)
    (calls : list call) (w : world) :
  truthy (user_uri (calendly_client w)) = true ->
  Forall (fun c => c <> TestConnection) calls ->
  calendly_client (serve_all upstream str_exn calls w) = calendly_client w.
Proof.
  intros Ht Hcalls. revert w Ht.
  induction Hcalls as [|c calls Hc _ IH]; intros w Ht; cbn [serve_all].
  - reflexivity.
  - pose proof (serve_client_kept upstream str_exn c w Hc Ht) as Hk.
    rewrite IH; [exact Hk|]. rewrite Hk. exact Ht.
Qed.

Lemma cached_identity_persists_witness :
  calendly_client
    (serve_all (Sample.always (Responds (Sample.ok Sample.user_payload)))
       Sample.render
       [Events; Root;
        Availability Sample.event_type "2025-11-14T20:00:00.000000Z"
          "2025-11-20T20:00:00.000000Z";
        Book [("appointment_type", VStr Sample.event_type)]; Events]
       Sample.known) = Sample.known_client.
Proof.
  apply (cached_identity_persists
           (Sample.always (Responds (Sample.ok Sample.user_payload)))
           Sample.render).
  - reflexivity.
  - repeat constructor; discriminate.
Defined.

(** X12.  With a token in the environment the process starts whatever the
    upstream does: start-up sends the one [/users/me] request and
    swallows its failure, leaving no identity cached.  A missing
    [BASE_URL] is not checked either: the request is then addressed to
    the text [None]. *)
Theorem boot_survives_upstream_failure
    (upstream : provider) (getenv : string -> option string)
    (tok : string) :
  getenv "CALENDLY_API_TOKEN" = Some tok ->
  tok <> EmptyString ->
  exists w0,
    boot upstream getenv = inr w0
    /\ wire w0 =
         [mkRequest GET (str_opt (getenv "BASE_URL") ++ "/users/me")
            [("Authorization", "Bearer " ++ tok);
             ("Content-Type", "application/json")]
            [] None]
    /\ (getenv "BASE_URL" = None ->
        wire w0 =
          [mkRequest GET "None/users/me"
             [("Authorization", "Bearer " ++ tok);
              ("Content-Type", "application/json")]
             [] None])
    /\ (connection_fails upstream
          (mkWorld
             (mkClient (getenv "BASE_URL") tok
                [("Authorization", "Bearer " ++ tok);
                 ("Content-Type", "application/json")]
                VNone VNone) []) ->
        user_uri (calendly_client w0) = VNone
        /\ user_uuid (calendly_client w0) = VNone).
Proof.
  intros H Hne. unfold boot, __init__. rewrite H.
  destruct (String.eqb_spec tok EmptyString); [contradiction|].
  eexists. split; [reflexivity|].
  unfold startup_event, bind.
  match goal with
  | |- context [test_connection upstream ?w] =>
      pose proof (test_connection_wire upstream w) as Hw;
      pose proof (test_connection_failed upstream w) as Hf;
      destruct (test_connection_returns upstream w) as [v Hv];
      destruct (test_connection upstream w) as [res w1]
  end.
  cbn [fst] in Hv. subst res. cbn [snd ret] in *.
  split; [exact Hw|]. split.
  - intros Hb. rewrite Hw, Hb. reflexivity.
  - intros Hfail. specialize (Hf Hfail). injection Hf as _ ->.
    split; reflexivity.
Qed.

Lemma boot_survives_upstream_failure_witness :
  exists w0,
    boot Sample.unreachable Sample.env_without_base = inr w0
    /\ wire w0 =
         [mkRequest GET "None/users/me"
            [("Authorization", "Bearer s3cr3t");
             ("Content-Type", "application/json")]
            [] None]
    /\ user_uri (calendly_client w0) = VNone.
Proof.
  destruct (boot_survives_upstream_failure Sample.unreachable
              Sample.env_without_base "s3cr3t" eq_refl)
    as [w0 [Hb [_ [Hw Hf]]]]; [discriminate|].
  exists w0. split; [exact Hb|]. split; [exact (Hw eq_refl)|].
  apply Hf. left. eexists. reflexivity.
Defined.

Lemma str_int_inj (a b : Z) : str_int a = str_int b -> a = b.
Proof.
  unfold str_int. intros H.
  assert (Hnil : forall z,
            Z.to_int z <> Decimal.Pos Decimal.Nil
            /\ Z.to_int z <> Decimal.Neg Decimal.Nil).
  { intros z. destruct z as [|p|p]; cbn; split; try discriminate;
      intros E; injection E as E;
      exact (DecimalPos.Unsigned.to_uint_nonnil p E). }
  apply DecimalZ.to_int_inj.
  assert (E : NilZero.int_of_string (NilZero.string_of_int (Z.to_int a)) =
              NilZero.int_of_string (NilZero.string_of_int (Z.to_int b)))
    by (rewrite H; reflexivity).
  rewrite !NilZero.isi in E by apply Hnil.
  injection E as E. exact E.
Qed.

(** X13.  The soft error keeps what the upstream said: from the payload
    one can read back the status code and the response text, so two
    responses that differ in either give different payloads. *)
Theorem soft_error_keeps_status_and_text (r1 r2 : response) :
  soft_error r1 = soft_error r2 ->
  status_code r1 = status_code r2 /\ text r1 = text r2.
Proof.
  unfold soft_error. intros H. injection H as He Ht.
  split; [|exact Ht]. apply str_int_inj. exact He.
Qed.

Lemma soft_error_keeps_status_and_text_witness :
  status_code Sample.unauthorized =
    status_code (mkResponse 401 "Unauthenticated" (Some VNone))
  /\ text Sample.unauthorized =
       text (mkResponse 401 "Unauthenticated" (Some VNone)).
Proof.
  apply (soft_error_keeps_status_and_text Sample.unauthorized
           (mkResponse 401 "Unauthenticated" (Some VNone))).
  reflexivity.
Defined.

(** X14.  Start-up and listing compose: when the start-up connection test
    gets a 200 response carrying a non-empty account URI, the process
    starts with that URI cached, and the first call to the events
    endpoint sends the listing request alone, filtered by it. *)
Theorem startup_populates_identity
    (upstream : provider) (str_exn : exn -> string)
    (getenv : string -> option string) (tok u : string)
    (r : response) (data resource : value) :
  getenv "CALENDLY_API_TOKEN" = Some tok ->
  tok <> EmptyString ->
  upstream []
    (mkRequest GET (str_opt (getenv "BASE_URL") ++ "/users/me")
       [("Authorization", "Bearer " ++ tok);
        ("Content-Type", "application/json")]
       [] None) = Responds r ->
  status_code r = 200 ->
  json r = Some data ->
  subscript data "resource" = inr resource ->
  subscript resource "uri" = inr (VStr u) ->
  u <> EmptyString ->
  exists w0,
    boot upstream getenv = inr w0
    /\ user_uri (calendly_client w0) = VStr u
    /\ wire (snd (serve upstream str_exn Events w0)) =
         [mkRequest GET (str_opt (getenv "BASE_URL") ++ "/users/me")
            [("Authorization", "Bearer " ++ tok);
             ("Content-Type", "application/json")]
            [] None;
          mkRequest GET (str_opt (getenv "BASE_URL") ++ "/event_types")
            [("Authorization", "Bearer " ++ tok);
             ("Content-Type", "application/json")]
            [("user", VStr u)] None].
Proof.
  intros H Hne Hr Hs Hj Hres Huri Hu. unfold boot, __init__. rewrite H.
  destruct (String.eqb_spec tok EmptyString); [contradiction|].
  eexists. split; [reflexivity|].
  unfold startup_event, bind.
  match goal with
  | |- context [test_connection upstream ?w] =>
      pose proof (test_connection_wire upstream w) as Hw;
      pose proof (test_connection_credentials upstream w) as Hc;
      pose proof (test_connection_caches upstream w r data resource u
                    Hr Hs Hj Hres Huri) as Hid;
      destruct (test_connection_returns upstream w) as [v Hv];
      destruct (test_connection upstream w) as [res w1]
  end.
  cbn [fst] in Hv. subst res. cbn [snd ret] in *.
  split; [exact Hid|].
  rewrite serve_events. unfold identity_ensured. rewrite Hid.
  cbn [truthy].
  destruct (String.eqb_spec u EmptyString); [contradiction|]. cbn [negb].
  unfold sent, listing_request. cbn [snd wire].
  unfold credentials in Hc. injection Hc as Hb _ Hh.
  rewrite Hw, Hb, Hh, Hid. reflexivity.
Qed.

Lemma startup_populates_identity_witness :
  exists w0,
    boot (Sample.always (Responds (Sample.ok Sample.user_payload)))
      Sample.env = inr w0
    /\ user_uri (calendly_client w0) = VStr Sample.account
    /\ wire (snd (serve
                    (Sample.always (Responds (Sample.ok Sample.user_payload)))
                    Sample.render Events w0)) =
         [whoami_request Sample.fresh_client;
          listing_request Sample.fresh_client (VStr Sample.account)].
Proof.
  apply (startup_populates_identity
           (Sample.always (Responds (Sample.ok Sample.user_payload)))
           Sample.render Sample.env "s3cr3t" Sample.account
           (Sample.ok Sample.user_payload) Sample.user_payload
           (VDict [("uri", VStr Sample.account);
                   ("name", VStr "Front Desk")]));
    reflexivity || discriminate.
Defined.
